(** * Conversor de Arquivos: the converter-selection and execution policy

    A shallow embedding of [converter_app.py]: the capability probes
    ([DocumentConverter._check_word_installed], [_find_libreoffice]),
    the dispatcher ([convert_to_pdf], [_convert_with_libreoffice]) and
    the batch worker ([ConverterApp.run_conversion]).

    Python text ([str]) is represented by its UTF-8 encoding in a Rocq
    [string]; raw data ([bytes]) is a [list byte].  Everything the
    program asks of the outside world (imports, the filesystem, the
    executable search path, the automation bridge, child processes, the
    widgets) is an event; the host answers each call as a function of
    the events that happened before it. *)

From Stdlib Require Import String Ascii List ZArith NArith Bool Lia.
From Stdlib Require Import Strings.Byte DecimalString.
Import ListNotations.
Local Open Scope list_scope.
Local Open Scope string_scope.

(** ** The Python values the program handles *)

Module Py.

Definition str := string.
Definition bytes := list byte.

(** Truth value of an object that is [None] or a [str]:
    [None] and the empty string are false. *)
Definition truthy (o : option str) : bool :=
  match o with
  | None => false
  | Some s => negb (s =? "")
  end.

(** [x in xs] for a list of strings. *)
Fixpoint str_in (x : str) (xs : list str) : bool :=
  match xs with
  | [] => false
  | y :: ys => (x =? y) || str_in x ys
  end.

(** [s * n] *)
Fixpoint str_mul (s : str) (n : nat) : str :=
  match n with
  | O => ""
  | S k => s ++ str_mul s k
  end.

(** [str(n)] for a non-negative [int]. *)
Definition str_of_nat (n : nat) : str :=
  NilZero.string_of_uint (Nat.to_uint n).

(** *** [str.lower]

    An ASCII character is its own UTF-8 encoding and is lowered on its
    own: [A]..[Z] move to [a]..[z], the others stay.  What a character
    outside ASCII becomes is decided by the Unicode tables of the
    interpreter (and, for the Greek sigma, by its neighbours); the
    embedding takes that part as [nonascii whole i], the text that
    replaces the byte at index [i] of [whole]. *)

Definition is_ascii (c : ascii) : bool := (N_of_ascii c <? 128)%N.

Definition is_upper (c : ascii) : bool :=
  ((65 <=? N_of_ascii c) && (N_of_ascii c <=? 90))%N.

Definition lower_char (c : ascii) : ascii :=
  if is_upper c then ascii_of_N (N_of_ascii c + 32) else c.

Fixpoint lower_from (nonascii : str -> nat -> str) (whole : str)
                    (i : nat) (s : str) : str :=
  match s with
  | EmptyString => ""
  | String c r =>
      (if is_ascii c then String (lower_char c) "" else nonascii whole i)
      ++ lower_from nonascii whole (S i) r
  end.

Definition lower (nonascii : str -> nat -> str) (s : str) : str :=
  lower_from nonascii s 0 s.

(** *** [bytes.decode('utf-8', errors='ignore')]

    Well-formed sequences are kept, everything else is dropped.  After
    an ill-formed sequence decoding resumes at the first byte that did
    not fit; a sequence cut short by the end of the data is dropped
    with the data. *)

Definition in_range (lo hi : N) (b : byte) : bool :=
  ((lo <=? Byte.to_N b) && (Byte.to_N b <=? hi))%N.

Definition chr (b : byte) : ascii := ascii_of_byte b.

(** Bounds of the second byte of a three-byte sequence led by [b0]. *)
Definition second_of_three (b0 : byte) : N * N :=
  if (Byte.to_N b0 =? 224)%N then (160, 191)%N
  else if (Byte.to_N b0 =? 237)%N then (128, 159)%N
  else (128, 191)%N.

(** Bounds of the second byte of a four-byte sequence led by [b0]. *)
Definition second_of_four (b0 : byte) : N * N :=
  if (Byte.to_N b0 =? 240)%N then (144, 191)%N
  else if (Byte.to_N b0 =? 244)%N then (128, 143)%N
  else (128, 191)%N.

Fixpoint decode_utf8_ignore (bs : bytes) : str :=
  match bs with
  | [] => ""
  | b0 :: r0 =>
      if in_range 0 127 b0 then String (chr b0) (decode_utf8_ignore r0)
      else if in_range 194 223 b0 then
        match r0 with
        | [] => ""
        | b1 :: r1 =>
            if in_range 128 191 b1
            then String (chr b0) (String (chr b1) (decode_utf8_ignore r1))
            else decode_utf8_ignore r0
        end
      else if in_range 224 239 b0 then
        match r0 with
        | [] => ""
        | b1 :: r1 =>
            if in_range (fst (second_of_three b0)) (snd (second_of_three b0)) b1
            then
              match r1 with
              | [] => ""
              | b2 :: r2 =>
                  if in_range 128 191 b2
                  then String (chr b0) (String (chr b1) (String (chr b2)
                         (decode_utf8_ignore r2)))
                  else decode_utf8_ignore r1
              end
            else decode_utf8_ignore r0
        end
      else if in_range 240 244 b0 then
        match r0 with
        | [] => ""
        | b1 :: r1 =>
            if in_range (fst (second_of_four b0)) (snd (second_of_four b0)) b1
            then
              match r1 with
              | [] => ""
              | b2 :: r2 =>
                  if in_range 128 191 b2
                  then
                    match r2 with
                    | [] => ""
                    | b3 :: r3 =>
                        if in_range 128 191 b3
                        then String (chr b0) (String (chr b1) (String (chr b2)
                               (String (chr b3) (decode_utf8_ignore r3))))
                        else decode_utf8_ignore r2
                    end
                  else decode_utf8_ignore r1
              end
            else decode_utf8_ignore r0
        end
      else decode_utf8_ignore r0
  end.

(** *** Exceptions

    Every exception the program can meet is an instance of [Exception];
    the handlers tell [ImportError] and [subprocess.CalledProcessError]
    from the rest. *)
Inductive exn : Type :=
| ImportError (msg : str)
| CalledProcessError (returncode : Z) (cmd : list str) (output stderr : bytes)
| Exception_ (msg : str).

End Py.
Import Py.

(** ** [posixpath]: the [os.path] of the Unix-like hosts

    The separator [/] and the dot are ASCII, so searching and cutting
    the UTF-8 encoding at their positions is searching and cutting the
    text. *)

Module posixpath.

(** [p[:n]] and [p[n:]] *)
Definition upto (n : nat) (p : str) : str := substring 0 n p.
Definition from (n : nat) (p : str) : str := substring n (String.length p - n) p.

(** [p.rfind(c)]: the highest index of [c] in [p], [-1] when there is none. *)
Fixpoint rfind_at (c : ascii) (p : str) (i : Z) : Z :=
  match p with
  | EmptyString => (-1)%Z
  | String d r =>
      let j := rfind_at c r (i + 1)%Z in
      if (0 <=? j)%Z then j else if Ascii.eqb d c then i else (-1)%Z
  end.

Definition rfind (p : str) (c : ascii) : Z := rfind_at c p 0%Z.

(** [p.rstrip(c)] *)
Fixpoint rstrip (p : str) (c : ascii) : str :=
  match p with
  | EmptyString => ""
  | String d r =>
      match rstrip r c with
      | EmptyString => if Ascii.eqb d c then "" else String d ""
      | r' => String d r'
      end
  end.

(** The loop of [genericpath._splitext] that skips the leading dots of
    the file name: [true] as soon as one of the [n] characters from
    index [filenameIndex] on is not a dot. *)
Fixpoint has_stem (p : str) (extsep : ascii) (filenameIndex n : nat) : bool :=
  match n with
  | O => false
  | S k =>
      if negb (substring filenameIndex 1 p =? String extsep "") then true
      else has_stem p extsep (S filenameIndex) k
  end.

Definition _splitext (p : str) (sep : ascii) (altsep : option ascii)
                     (extsep : ascii) : str * str :=
  let sepIndex :=
    match altsep with
    | Some a => Z.max (rfind p sep) (rfind p a)
    | None => rfind p sep
    end in
  let dotIndex := rfind p extsep in
  if (sepIndex <? dotIndex)%Z
     && has_stem p extsep (Z.to_nat (sepIndex + 1))
                 (Z.to_nat dotIndex - Z.to_nat (sepIndex + 1))
  then (upto (Z.to_nat dotIndex) p, from (Z.to_nat dotIndex) p)
  else (p, upto 0 p).

Definition splitext (p : str) : str * str := _splitext p "/" None ".".

Definition basename (p : str) : str :=
  let i := (rfind p "/" + 1)%Z in
  from (Z.to_nat i) p.

Definition dirname (p : str) : str :=
  let i := (rfind p "/" + 1)%Z in
  let head := upto (Z.to_nat i) p in
  if negb (head =? "") && negb (head =? str_mul "/" (String.length head))
  then rstrip head "/"
  else head.

End posixpath.

(** ** The outside world *)

(** What the program does to its surroundings, in the order it does it. *)
Inductive event : Type :=
| EvImport (module : str)
    (** [import docx2pdf], [from docx2pdf import convert] *)
| EvPathExists (path : str)
    (** [os.path.exists(path)] *)
| EvWhich (command : str)
    (** [shutil.which(command)] *)
| EvDocx2pdfConvert (input_path output_folder : str)
    (** [docx2pdf.convert(input_path, output_folder)] *)
| EvSubprocessRun (cmd : list str) (startupinfo : option Z)
    (** [subprocess.run(cmd, stdout=PIPE, stderr=PIPE, startupinfo=...)];
        [startupinfo] is [None] or the [dwFlags] of a [STARTUPINFO] *)
| EvLog (message : str)
    (** [log_message(message)]: the message and a newline enter the log box *)
| EvProgress (done total : nat)
    (** [progress_bar.set(done / total)] *)
| EvAfter (ms : nat) (callback : str)
    (** [self.after(ms, callback)] *).

Definition history := list event.

(** How a child process ends: it could not be started (the operating
    system's error, an [OSError] such as [FileNotFoundError]), or it ran
    to its exit status and left its two output streams. *)
Inductive child : Type :=
| NotStarted (msg : str)
| Exited (returncode : Z) (stdout stderr : bytes).

(** The machine the probes look at: the operating system's name
    ([platform.system()]) and, after any history, whether the bridge
    library imports, whether a path exists and where a command is found. *)
Record Machine : Type := {
  platform_system : str;
  import_docx2pdf : history -> option exn;
  os_path_exists : history -> str -> bool;
  shutil_which : history -> str -> option str;
}.

(** The host of a conversion: the machine, its [os.path] and text
    tables, the automation bridge and the process launcher.  An
    [option exn] is [None] for a call that returns and [Some e] for a
    call that raises [e]. *)
Record Host : Type := {
  machine :> Machine;
  splitext : str -> str * str;
  basename : str -> str;
  dirname : str -> str;
  lower_nonascii : str -> nat -> str;
  str_CalledProcessError : Z -> list str -> str;
  docx2pdf_convert : history -> str -> str -> option exn;
  popen : history -> list str -> option Z -> child;
}.

(** [str(e)] *)
Definition str_exn (h : Host) (e : exn) : str :=
  match e with
  | ImportError msg => msg
  | CalledProcessError returncode cmd _ _ => str_CalledProcessError h returncode cmd
  | Exception_ msg => msg
  end.

(** ** Computations

    A computation reads the history so far and gives the events it adds
    and how it ends: with a value or with an exception. *)

Inductive outcome (A : Type) : Type :=
| Returned (a : A)
| Raised (e : exn).
Arguments Returned {A} a.
Arguments Raised {A} e.

Definition M (A : Type) : Type := history -> outcome A * list event.

Definition ret {A} (a : A) : M A := fun _ => (Returned a, []).

Definition raise {A} (e : exn) : M A := fun _ => (Raised e, []).

Definition bind {A B} (m : M A) (f : A -> M B) : M B :=
  fun hist =>
    match m hist with
    | (Returned a, evs) =>
        let (r, evs') := f a (hist ++ evs)%list in (r, (evs ++ evs')%list)
    | (Raised e, evs) => (Raised e, evs)
    end.

(** [try: body  except Exception as e: handler e] *)
Definition try_except {A} (body : M A) (handler : exn -> M A) : M A :=
  fun hist =>
    match body hist with
    | (Returned a, evs) => (Returned a, evs)
    | (Raised e, evs) =>
        let (r, evs') := handler e (hist ++ evs)%list in (r, (evs ++ evs')%list)
    end.

(** An outside call: it is recorded, and the host's answer at the
    history before it decides how it ends. *)
Definition call {A} (ev : event) (answer : history -> outcome A) : M A :=
  fun hist => (answer hist, [ev]).

Definition returns_or_raises (o : option exn) : outcome unit :=
  match o with
  | None => Returned tt
  | Some e => Raised e
  end.

Declare Scope py_scope.
Delimit Scope py_scope with py.
Notation "x <- m ;; k" := (bind m (fun x => k))
  (at level 61, m at next level, right associativity) : py_scope.
Notation "m ;; k" := (bind m (fun _ => k))
  (at level 61, right associativity) : py_scope.
Local Open Scope py_scope.

(** *** The outside calls *)

(** [import docx2pdf] and [from docx2pdf import convert] *)
Definition import_ (h : Machine) : M unit :=
  call (EvImport "docx2pdf") (fun hist => returns_or_raises (import_docx2pdf h hist)).

(** [os.path.exists(path)]: it answers [False] where the operating
    system refuses the question, and raises nothing. *)
Definition exists_ (h : Machine) (path : str) : M bool :=
  call (EvPathExists path) (fun hist => Returned (os_path_exists h hist path)).

(** [shutil.which(command)]: the path of the command, or [None]. *)
Definition which (h : Machine) (command : str) : M (option str) :=
  call (EvWhich command) (fun hist => Returned (shutil_which h hist command)).

(** [docx2pdf.convert(input_path, output_folder)] *)
Definition convert (h : Host) (input_path output_folder : str) : M unit :=
  call (EvDocx2pdfConvert input_path output_folder)
       (fun hist => returns_or_raises (docx2pdf_convert h hist input_path output_folder)).

Definition STARTF_USESHOWWINDOW : Z := 1.

(** [subprocess.CompletedProcess] *)
Record CompletedProcess : Type := {
  args : list str;
  returncode : Z;
  stdout : bytes;
  stderr : bytes;
}.

(** [subprocess.run(cmd, stdout=PIPE, stderr=PIPE, startupinfo=..., check=...)]:
    the child is started and awaited; with [check], an exit status
    other than zero raises [CalledProcessError]. *)
Definition subprocess_run (h : Host) (cmd : list str) (startupinfo : option Z)
                          (check : bool) : M CompletedProcess :=
  call (EvSubprocessRun cmd startupinfo)
       (fun hist =>
          match popen h hist cmd startupinfo with
          | NotStarted msg => Raised (Exception_ msg)
          | Exited rc out err =>
              if check && negb (rc =? 0)%Z
              then Raised (CalledProcessError rc cmd out err)
              else Returned {| args := cmd; returncode := rc;
                               stdout := out; stderr := err |}
          end).

(** [log_message], [progress_bar.set] and [after]: calls into the
    widgets, which return nothing. *)
Definition log_message (message : str) : M unit :=
  call (EvLog message) (fun _ => Returned tt).

Definition progress_bar_set (done total : nat) : M unit :=
  call (EvProgress done total) (fun _ => Returned tt).

Definition after (ms : nat) (callback : str) : M unit :=
  call (EvAfter ms callback) (fun _ => Returned tt).

(** ** [class DocumentConverter] *)

Record DocumentConverter : Type := {
  has_word : bool;
  libreoffice_path : option str;
  supported_extensions : list str;
}.

Definition _check_word_installed (h : Machine) : M bool :=
  if negb (platform_system h =? "Windows") then ret false
  else
    try_except
      (import_ h ;; ret true)
      (fun e =>
         match e with
         | ImportError _ => ret false
         | _ => ret false
         end).

Definition _is_command_available (h : Machine) (command : str) : M bool :=
  w <- which h command ;;
  ret (match w with Some _ => true | None => false end).

(** [for path in paths_to_check: if os.path.exists(path): return path],
    followed by [rest] when the loop ends without returning. *)
Fixpoint for_path_in (h : Machine) (paths_to_check : list str)
                     (rest : M (option str)) : M (option str) :=
  match paths_to_check with
  | [] => rest
  | path :: paths =>
      found <- exists_ h path ;;
      if found then ret (Some path) else for_path_in h paths rest
  end.

Definition _find_libreoffice (h : Machine) : M (option str) :=
  let system := platform_system h in
  let after_loop :=
    (available <- _is_command_available h "soffice" ;;
     ret (if available then Some "soffice" else None)) in
  if system =? "Windows" then
    for_path_in h
      [ "C:\Program Files\LibreOffice\program\soffice.exe";
        "C:\Program Files (x86)\LibreOffice\program\soffice.exe" ]
      after_loop
  else if system =? "Darwin" then
    for_path_in h
      [ "/Applications/LibreOffice.app/Contents/MacOS/soffice" ]
      after_loop
  else
    ret (Some "soffice").

Definition __init__ (h : Machine) : M DocumentConverter :=
  word <- _check_word_installed h ;;
  path <- _find_libreoffice h ;;
  ret {| has_word := word;
         libreoffice_path := path;
         supported_extensions := [".docx"; ".doc"; ".odt"; ".rtf"] |}.

Definition _convert_with_libreoffice (h : Host) (self : DocumentConverter)
    (input_path output_folder : str) : M (bool * str) :=
  try_except
    (match libreoffice_path self with
     | None =>
         (* a [None] in the argument list: [subprocess] raises [TypeError]
            before it starts anything *)
         raise (Exception_ "expected str, bytes or os.PathLike object, not NoneType")
     | Some executable =>
         let cmd := [ executable; "--headless"; "--convert-to"; "pdf";
                      input_path; "--outdir"; output_folder ] in
         let startupinfo :=
           if platform_system h =? "Windows"
           then Some (Z.lor 0 STARTF_USESHOWWINDOW)
           else None in
         result <- subprocess_run h cmd startupinfo true ;;
         ret (true, "Convertido com LibreOffice: " ++ basename h input_path)
     end)
    (fun e =>
       match e with
       | CalledProcessError _ _ _ err =>
           ret (false, "Erro LibreOffice: " ++ decode_utf8_ignore err)
       | _ =>
           ret (false, "Erro genérico LibreOffice: " ++ str_exn h e)
       end).

(** The two statements of [convert_to_pdf] that drive the automation
    bridge: [from docx2pdf import convert] and the call. *)
Definition word_call (h : Host) (input_path output_folder : str) : M unit :=
  import_ h ;; convert h input_path output_folder.

Definition convert_to_pdf (h : Host) (self : DocumentConverter)
    (input_path output_folder : str) : M (bool * str) :=
  let ext := lower (lower_nonascii h) (snd (splitext h input_path)) in
  let filename := basename h input_path in
  if negb (str_in ext (supported_extensions self)) then
    ret (false, "Extensão não suportada: " ++ ext)
  else
    let use_word := has_word self && str_in ext [".docx"; ".doc"] in
    if use_word then
      try_except
        (word_call h input_path output_folder ;;
         ret (true, "Convertido com Word: " ++ filename))
        (fun e =>
           if truthy (libreoffice_path self)
           then _convert_with_libreoffice h self input_path output_folder
           else ret (false, "Erro Word: " ++ str_exn h e))
    else if truthy (libreoffice_path self) then
      _convert_with_libreoffice h self input_path output_folder
    else
      ret (false, "Nenhum conversor (Word ou LibreOffice) encontrado.").

(** ** [class ConverterApp]: the batch worker *)

Record ConverterApp : Type := {
  converter : DocumentConverter;
  selected_files : list str;
}.

(** The body of [for i, file_path in enumerate(self.selected_files)],
    from index [i] on, carrying [success_count]. *)
Fixpoint for_file_in (h : Host) (self : ConverterApp) (total : nat)
    (i : nat) (files : list str) (success_count : nat) : M nat :=
  match files with
  | [] => ret success_count
  | file_path :: rest =>
      let output_folder := dirname h file_path in
      r <- convert_to_pdf h (converter self) file_path output_folder ;;
      success_count' <-
        (if fst r
         then log_message ("[OK] " ++ snd r) ;; ret (success_count + 1)
         else log_message ("[ERRO] " ++ snd r) ;; ret success_count) ;;
      progress_bar_set (i + 1) total ;;
      for_file_in h self total (S i) rest success_count'
  end.

Definition run_conversion (h : Host) (self : ConverterApp) : M unit :=
  let total := List.length (selected_files self) in
  log_message (str_mul "-" 30) ;;
  log_message "Iniciando conversão..." ;;
  success_count <- for_file_in h self total 0 (selected_files self) 0 ;;
  log_message (str_mul "-" 30) ;;
  log_message ("Concluído! " ++ str_of_nat success_count ++ "/"
               ++ str_of_nat total ++ " arquivos convertidos.") ;;
  after 0 "reset_ui".

(** ** Words of the specification *)

(** The events a computation adds to a history. *)
Definition emitted {A} (m : M A) (hist : history) : list event := snd (m hist).

(** The word-processor backend is attempted: the bridge is imported. *)
Definition word_attempted (evs : list event) : Prop :=
  In (EvImport "docx2pdf") evs.

(** The headless backend is attempted: a child process is started. *)
Definition headless_attempted (evs : list event) : Prop :=
  exists cmd startupinfo, In (EvSubprocessRun cmd startupinfo) evs.

(** The command line of section 6:
    [<executable> --headless --convert-to pdf <input_file> --outdir <output_dir>]. *)
Definition headless_command (executable input_file output_dir : str) : list str :=
  [ executable; "--headless"; "--convert-to"; "pdf"; input_file;
    "--outdir"; output_dir ].

(** How the child is started: on Windows with a [STARTUPINFO] whose
    flags ask for no visible window, elsewhere with none. *)
Definition spawn_configuration (h : Machine) : option Z :=
  if platform_system h =? "Windows" then Some 1%Z else None.

(** The selection policy of section 4.2, steps 2 to 4, on a supported
    extension. *)
Inductive backend : Type := WordProcessor | Headless | NoConverter.

Definition select (word_available headless_available : bool) (ext : str) : backend :=
  if word_available && ((ext =? ".docx") || (ext =? ".doc")) then WordProcessor
  else if headless_available then Headless
  else NoConverter.

(** Two characters that differ at most in letter case. *)
Definition same_letter (c d : ascii) : bool :=
  Ascii.eqb c d
  || (is_upper c && Ascii.eqb (ascii_of_N (N_of_ascii c + 32)) d)
  || (is_upper d && Ascii.eqb (ascii_of_N (N_of_ascii d + 32)) c).

(** Two texts that differ only in letter case. *)
Fixpoint differs_only_in_case (s t : str) : bool :=
  match s, t with
  | EmptyString, EmptyString => true
  | String c s', String d t' => same_letter c d && differs_only_in_case s' t'
  | _, _ => false
  end.

(** The log line of one file. *)
Definition report (success : bool) (msg : str) : str :=
  (if success then "[OK] " else "[ERRO] ") ++ msg.

(** The files of a batch from index [i] on are converted one after the
    other, each in the history its predecessors left: [results] are
    their results and [evs] the events of the whole run. *)
Inductive converted_in_order (h : Host) (self : DocumentConverter) (total : nat) :
    nat -> history -> list str -> list (bool * str) -> list event -> Prop :=
| CIO_done i hist :
    converted_in_order h self total i hist [] [] []
| CIO_file i hist file_path files success msg evs results evs' :
    convert_to_pdf h self file_path (dirname h file_path) hist
      = (Returned (success, msg), evs) ->
    converted_in_order h self total (S i)
      (hist ++ evs ++ [ EvLog (report success msg); EvProgress (S i) total ])%list
      files results evs' ->
    converted_in_order h self total i hist (file_path :: files)
      ((success, msg) :: results)
      (evs ++ [ EvLog (report success msg); EvProgress (S i) total ] ++ evs')%list.

(** The number of failures among the results of a batch. *)
Definition failures (results : list (bool * str)) : nat :=
  List.length (filter (fun r => negb (fst r)) results).

(** What one run of the headless converter gives, read off the child. *)
Definition headless_result (h : Host) (input_path : str) (c : child) : bool * str :=
  match c with
  | Exited rc _ err =>
      if (rc =? 0)%Z
      then (true, "Convertido com LibreOffice: " ++ basename h input_path)
      else (false, "Erro LibreOffice: " ++ decode_utf8_ignore err)
  | NotStarted msg => (false, "Erro genérico LibreOffice: " ++ msg)
  end.

(** The extension [convert_to_pdf] tests: the one [os.path.splitext]
    gives, lowered. *)
Definition extension (h : Host) (input_path : str) : str :=
  lower (lower_nonascii h) (snd (splitext h input_path)).

(** The [try] statement of the word-processor branch. *)
Definition word_branch (h : Host) (self : DocumentConverter)
    (input_path output_folder : str) : M (bool * str) :=
  try_except
    (word_call h input_path output_folder ;;
     ret (true, "Convertido com Word: " ++ basename h input_path))
    (fun e =>
       if truthy (libreoffice_path self)
       then _convert_with_libreoffice h self input_path output_folder
       else ret (false, "Erro Word: " ++ str_exn h e)).

(** How [convert_to_pdf] treats a request whose extension, once lowered,
    is [ext]: the selected backend, and only that one, comes first. *)
Definition follows_policy (h : Host) (self : DocumentConverter) (ext : str)
    (input_path output_folder : str) (hist : history) : Prop :=
  match select (has_word self) (truthy (libreoffice_path self)) ext with
  | WordProcessor =>
      exists evs,
        emitted (convert_to_pdf h self input_path output_folder) hist
        = EvImport "docx2pdf" :: evs
  | Headless =>
      convert_to_pdf h self input_path output_folder hist
      = _convert_with_libreoffice h self input_path output_folder hist
      /\ headless_attempted (emitted (convert_to_pdf h self input_path output_folder) hist)
      /\ ~ word_attempted (emitted (convert_to_pdf h self input_path output_folder) hist)
  | NoConverter =>
      convert_to_pdf h self input_path output_folder hist
      = (Returned (false, "Nenhum conversor (Word ou LibreOffice) encontrado."), [])
  end.

(** A character that [lower] leaves alone whatever the tables say. *)
Definition plain (d : ascii) : bool := is_ascii d && negb (is_upper d).

(** The bare name, when the search path resolves it. *)
Definition bare_name (h : Machine) (hist : history) : option str :=
  match shutil_which h hist "soffice" with
  | Some _ => Some "soffice"
  | None => None
  end.

(** The number of successes among the results of a batch. *)
Definition successes (results : list (bool * str)) : nat :=
  List.length (filter (fun r => fst r) results).

(** The test of [select_folder] on a file of the folder. *)
Definition is_compatible (h : Host) (self : DocumentConverter) (file : str) : bool :=
  str_in (lower (lower_nonascii h) (snd (splitext h file)))
         (supported_extensions self).

(** ** Some hosts *)

Module Hosts.

(** No library, no file, no command. *)
Definition bare (system : str) : Machine :=
  {| platform_system := system;
     import_docx2pdf := fun _ => Some (ImportError "No module named 'docx2pdf'");
     os_path_exists := fun _ _ => false;
     shutil_which := fun _ _ => None |}.

(** A Windows machine with the bridge library and LibreOffice in its
    32-bit folder. *)
Definition windows : Machine :=
  {| platform_system := "Windows";
     import_docx2pdf := fun _ => None;
     os_path_exists := fun _ path =>
       path =? "C:\Program Files (x86)\LibreOffice\program\soffice.exe";
     shutil_which := fun _ _ => None |}.

(** A Mac with LibreOffice among its applications. *)
Definition mac : Machine :=
  {| platform_system := "Darwin";
     import_docx2pdf := fun _ => Some (ImportError "No module named 'docx2pdf'");
     os_path_exists := fun _ path =>
       path =? "/Applications/LibreOffice.app/Contents/MacOS/soffice";
     shutil_which := fun _ _ => None |}.

(** A Unix-like host: [posixpath], a bridge whose call fails, and a
    [soffice] that converts everything but the files named
    [quebrado.*], on which it exits with status 1. *)
Definition posix (system : str) : Host :=
  {| machine := bare system;
     splitext := posixpath.splitext;
     basename := posixpath.basename;
     dirname := posixpath.dirname;
     lower_nonascii := fun whole i => substring i 1 whole;
     str_CalledProcessError := fun _ _ => "Command returned non-zero exit status.";
     docx2pdf_convert := fun _ _ _ => Some (Exception_ "Word not found");
     popen := fun _ cmd _ =>
       match cmd with
       | executable :: _ :: _ :: _ :: input_file :: _ =>
           if negb (executable =? "soffice") then
             NotStarted "[Errno 2] No such file or directory"
           else if fst (posixpath.splitext (posixpath.basename input_file)) =? "quebrado"
           then Exited 1 [] [x45; x72; x72; x6f; xff; x21]
           else Exited 0 [] []
       | _ => NotStarted "[Errno 2] No such file or directory"
       end |}.

Definition linux : Host := posix "Linux".

Definition extensions : list str := [".docx"; ".doc"; ".odt"; ".rtf"].

(** Converters as [__init__] leaves them, one for each capability snapshot. *)
Definition both : DocumentConverter :=
  {| has_word := true; libreoffice_path := Some "soffice";
     supported_extensions := extensions |}.

Definition word_only : DocumentConverter :=
  {| has_word := true; libreoffice_path := None;
     supported_extensions := extensions |}.

Definition headless_only : DocumentConverter :=
  {| has_word := false; libreoffice_path := Some "soffice";
     supported_extensions := extensions |}.

Definition neither : DocumentConverter :=
  {| has_word := false; libreoffice_path := None;
     supported_extensions := extensions |}.

End Hosts.

(** ** [class ConverterApp]: the window

    The widgets the handlers configure are fields of the window's
    state; what the user and the filesystem answer (the files picked,
    the folder picked, the walk of the folder) comes in as arguments of
    the handler that asks. *)

Module Gui.

(** [messagebox.showwarning(title, message)], [messagebox.showinfo(title, message)] *)
Inductive dialog : Type :=
| ShowWarning (title message : str)
| ShowInfo (title message : str).

Record Window : Type := {
  app : ConverterApp;          (* [self.converter], [self.selected_files] *)
  is_converting : bool;
  btn_convert_state : str;
  btn_convert_text : str;
  btn_file_state : str;
  btn_folder_state : str;
  lbl_selection : str;
  dialogs : list dialog;       (* the message boxes shown, the oldest first *)
  threads : nat;               (* the worker threads started *)
}.

(** The newline of ["\n"]. *)
Definition nl : str := String (ascii_of_nat 10) "".

(** [sep.join(lines)] *)
Fixpoint join (sep : str) (lines : list str) : str :=
  match lines with
  | [] => ""
  | [line] => line
  | line :: rest => line ++ sep ++ join sep rest
  end.

Definition set_selected_files (files : list str) (w : Window) : Window :=
  {| app := {| converter := converter (app w); selected_files := files |};
     is_converting := is_converting w;
     btn_convert_state := btn_convert_state w;
     btn_convert_text := btn_convert_text w;
     btn_file_state := btn_file_state w;
     btn_folder_state := btn_folder_state w;
     lbl_selection := lbl_selection w;
     dialogs := dialogs w;
     threads := threads w |}.

Definition set_is_converting (b : bool) (w : Window) : Window :=
  {| app := app w;
     is_converting := b;
     btn_convert_state := btn_convert_state w;
     btn_convert_text := btn_convert_text w;
     btn_file_state := btn_file_state w;
     btn_folder_state := btn_folder_state w;
     lbl_selection := lbl_selection w;
     dialogs := dialogs w;
     threads := threads w |}.

(** [self.btn_convert.configure(state=..., text=...)] *)
Definition btn_convert_configure (state text : str) (w : Window) : Window :=
  {| app := app w;
     is_converting := is_converting w;
     btn_convert_state := state;
     btn_convert_text := text;
     btn_file_state := btn_file_state w;
     btn_folder_state := btn_folder_state w;
     lbl_selection := lbl_selection w;
     dialogs := dialogs w;
     threads := threads w |}.

(** [self.btn_file.configure(state=...)] *)
Definition btn_file_configure (state : str) (w : Window) : Window :=
  {| app := app w;
     is_converting := is_converting w;
     btn_convert_state := btn_convert_state w;
     btn_convert_text := btn_convert_text w;
     btn_file_state := state;
     btn_folder_state := btn_folder_state w;
     lbl_selection := lbl_selection w;
     dialogs := dialogs w;
     threads := threads w |}.

(** [self.btn_folder.configure(state=...)] *)
Definition btn_folder_configure (state : str) (w : Window) : Window :=
  {| app := app w;
     is_converting := is_converting w;
     btn_convert_state := btn_convert_state w;
     btn_convert_text := btn_convert_text w;
     btn_file_state := btn_file_state w;
     btn_folder_state := state;
     lbl_selection := lbl_selection w;
     dialogs := dialogs w;
     threads := threads w |}.

(** [self.lbl_selection.configure(text=text)] *)
Definition update_selection_label (text : str) (w : Window) : Window :=
  {| app := app w;
     is_converting := is_converting w;
     btn_convert_state := btn_convert_state w;
     btn_convert_text := btn_convert_text w;
     btn_file_state := btn_file_state w;
     btn_folder_state := btn_folder_state w;
     lbl_selection := text;
     dialogs := dialogs w;
     threads := threads w |}.

Definition show (d : dialog) (w : Window) : Window :=
  {| app := app w;
     is_converting := is_converting w;
     btn_convert_state := btn_convert_state w;
     btn_convert_text := btn_convert_text w;
     btn_file_state := btn_file_state w;
     btn_folder_state := btn_folder_state w;
     lbl_selection := lbl_selection w;
     dialogs := (dialogs w ++ [d])%list;
     threads := threads w |}.

(** [threading.Thread(target=self.run_conversion).start()] *)
Definition thread_start (w : Window) : Window :=
  {| app := app w;
     is_converting := is_converting w;
     btn_convert_state := btn_convert_state w;
     btn_convert_text := btn_convert_text w;
     btn_file_state := btn_file_state w;
     btn_folder_state := btn_folder_state w;
     lbl_selection := lbl_selection w;
     dialogs := dialogs w;
     threads := S (threads w) |}.

Definition _check_dependencies (w : Window) : M Window :=
  let self := converter (app w) in
  let status := [] in
  let status :=
    if has_word self
    then (status ++ ["MS Word detectado (docx2pdf)."])%list
    else (status ++ ["MS Word NÃO detectado."])%list in
  let status :=
    if truthy (libreoffice_path self)
    then (status ++ ["LibreOffice detectado."])%list
    else (status ++ ["LibreOffice NÃO detectado. Instale para suporte a ODT/RTF."])%list in
  log_message (join nl status) ;;
  if negb (has_word self) && negb (truthy (libreoffice_path self))
  then ret (show (ShowWarning "Aviso"
                    ("Nenhum conversor encontrado!" ++ nl
                     ++ "Instale o MS Word ou LibreOffice.")) w)
  else ret w.

(** The window as [_setup_ui] builds it around a converter. *)
Definition _setup_ui (self : DocumentConverter) : Window :=
  {| app := {| converter := self; selected_files := [] |};
     is_converting := false;
     btn_convert_state := "disabled";
     btn_convert_text := "Converter para PDF";
     btn_file_state := "normal";
     btn_folder_state := "normal";
     lbl_selection := "Nenhum arquivo selecionado";
     dialogs := [];
     threads := 0 |}.

(** [ConverterApp.__init__]: the converter is built, then the window;
    [_setup_ui] sets the progress bar to 0, the fraction 0/1. *)
Definition __init__ (h : Machine) : M Window :=
  self <- __init__ h ;;
  progress_bar_set 0 1 ;;
  _check_dependencies (_setup_ui self).

(** [select_files]; [files] is what [filedialog.askopenfilenames] returns. *)
Definition select_files (files : list str) (w : Window) : M Window :=
  match files with
  | _ :: _ =>
      let w := set_selected_files files w in
      let w := update_selection_label
                 (str_of_nat (List.length files) ++ " arquivo(s) selecionado(s)") w in
      let w := btn_convert_configure "normal" (btn_convert_text w) w in
      log_message ("Selecionados: " ++ str_of_nat (List.length files) ++ " arquivos.") ;;
      ret w
  | [] => ret w
  end.

(** The two loops of [select_folder] over the walk of the folder. *)
Fixpoint for_file_in_files (h : Host) (os_path_join : str -> str -> str)
    (self : DocumentConverter) (root : str) (files : list str)
    (found_files : list str) : list str :=
  match files with
  | [] => found_files
  | file :: rest =>
      for_file_in_files h os_path_join self root rest
        (if str_in (lower (lower_nonascii h) (snd (splitext h file)))
                   (supported_extensions self)
         then (found_files ++ [os_path_join root file])%list
         else found_files)
  end.

Fixpoint for_root_in_walk (h : Host) (os_path_join : str -> str -> str)
    (self : DocumentConverter) (walk : list (str * list str * list str))
    (found_files : list str) : list str :=
  match walk with
  | [] => found_files
  | (root, dirs, files) :: rest =>
      for_root_in_walk h os_path_join self rest
        (for_file_in_files h os_path_join self root files found_files)
  end.

(** [select_folder]; [folder] is what [filedialog.askdirectory] returns
    and [walk] what [os.walk(folder)] yields. *)
Definition select_folder (h : Host) (os_path_join : str -> str -> str)
    (folder : str) (walk : list (str * list str * list str))
    (w : Window) : M Window :=
  if negb (folder =? "") then
    let found_files :=
      for_root_in_walk h os_path_join (converter (app w)) walk [] in
    match found_files with
    | _ :: _ =>
        let w := set_selected_files found_files w in
        let w := update_selection_label
                   ("Pasta: " ++ folder ++ " ("
                    ++ str_of_nat (List.length found_files)
                    ++ " arquivos compatíveis)") w in
        let w := btn_convert_configure "normal" (btn_convert_text w) w in
        log_message ("Pasta selecionada. " ++ str_of_nat (List.length found_files)
                     ++ " arquivos encontrados.") ;;
        ret w
    | [] =>
        let w := update_selection_label
                   "Nenhum arquivo compatível encontrado na pasta." w in
        let w := btn_convert_configure "disabled" (btn_convert_text w) w in
        ret w
    end
  else ret w.

(** [start_conversion_thread]; [progress_bar.set(0)] is the fraction 0/1. *)
Definition start_conversion_thread (w : Window) : M Window :=
  match selected_files (app w) with
  | [] => ret w
  | _ :: _ =>
      let w := set_is_converting true w in
      let w := btn_convert_configure "disabled" "Convertendo..." w in
      let w := btn_file_configure "disabled" w in
      let w := btn_folder_configure "disabled" w in
      progress_bar_set 0 1 ;;
      ret (thread_start w)
  end.

Definition reset_ui (w : Window) : M Window :=
  let w := set_is_converting false w in
  let w := btn_convert_configure "normal" "Converter para PDF" w in
  let w := btn_file_configure "normal" w in
  let w := btn_folder_configure "normal" w in
  ret (show (ShowInfo "Sucesso" "Processo de conversão finalizado!") w).

(** What can happen to the window.  A button answers only while its
    state is [normal]; the worker a click on the convert button started
    ends by having [reset_ui] called, once. *)
Inductive step (h : Host) (os_path_join : str -> str -> str) :
    Window -> Window -> Prop :=
| PressFile w files hist evs w' :
    btn_file_state w = "normal" ->
    select_files files w hist = (Returned w', evs) ->
    step h os_path_join w w'
| PressFolder w folder walk hist evs w' :
    btn_folder_state w = "normal" ->
    select_folder h os_path_join folder walk w hist = (Returned w', evs) ->
    step h os_path_join w w'
| PressConvert w hist evs w' :
    btn_convert_state w = "normal" ->
    start_conversion_thread w hist = (Returned w', evs) ->
    step h os_path_join w w'
| WorkerEnds w hist evs w' :
    is_converting w = true ->
    reset_ui w hist = (Returned w', evs) ->
    step h os_path_join w w'.

Inductive reachable (h : Host) (os_path_join : str -> str -> str)
    (w0 : Window) : Window -> Prop :=
| Start : reachable h os_path_join w0 w0
| Next w w' :
    reachable h os_path_join w0 w ->
    step h os_path_join w w' ->
    reachable h os_path_join w0 w'.

End Gui.

(** [posixpath.join(a, b)] *)
Definition posixpath_join (a b : str) : str :=
  if prefix "/" b then b
  else if (a =? "") || (substring (String.length a - 1) 1 a =? "/") then a ++ b
  else a ++ "/" ++ b.

(** A name with no separator in it, as the names [os.walk] lists are. *)
Fixpoint no_slash (name : str) : bool :=
  match name with
  | EmptyString => true
  | String c r => negb (Ascii.eqb c "/") && no_slash r
  end.

(** A directory prefix: empty, or ending with the separator. *)
Definition directory_prefix (d : str) : Prop :=
  d = "" \/ exists d0, d = d0 ++ "/".

(** What holds of the window in every state it can reach. *)
Definition window_invariant (w : Gui.Window) : Prop :=
  (Gui.is_converting w = true ->
   Gui.btn_convert_state w = "disabled"
   /\ Gui.btn_file_state w = "disabled"
   /\ Gui.btn_folder_state w = "disabled"
   /\ selected_files (Gui.app w) <> [])
  /\ (Gui.btn_convert_state w = "normal" -> selected_files (Gui.app w) <> []).

(** ** Reading a run *)

(** The progress-bar settings among the events, as [(done, total)]. *)
Definition progress_of (evs : list event) : list (nat * nat) :=
  flat_map (fun ev => match ev with
                      | EvProgress done total => [(done, total)]
                      | _ => []
                      end) evs.

(** The calls into the widgets, as opposed to the calls to the backends
    and the probes. *)
Definition is_widget_event (ev : event) : bool :=
  match ev with
  | EvLog _ | EvProgress _ _ | EvAfter _ _ => true
  | _ => false
  end.

(** ** Fakes *)

Module Fakes.

(** A host like [Hosts.linux] on which the bridge imports and converts. *)
Definition working_bridge : Host :=
  {| machine :=
       {| platform_system := "Linux";
          import_docx2pdf := fun _ => None;
          os_path_exists := fun _ _ => false;
          shutil_which := fun _ _ => None |};
     splitext := posixpath.splitext;
     basename := posixpath.basename;
     dirname := posixpath.dirname;
     lower_nonascii := lower_nonascii Hosts.linux;
     str_CalledProcessError := str_CalledProcessError Hosts.linux;
     docx2pdf_convert := fun _ _ _ => None;
     popen := popen Hosts.linux |}.

(** The window after [/docs/carta.docx] was picked in the file dialog. *)
Definition picked : Gui.Window :=
  Gui.btn_convert_configure "normal" "Converter para PDF"
    (Gui.update_selection_label "1 arquivo(s) selecionado(s)"
       (Gui.set_selected_files ["/docs/carta.docx"]
          (Gui._setup_ui Hosts.headless_only))).

(** The same window after a click on the convert button. *)
Definition converting : Gui.Window :=
  Gui.thread_start
    (Gui.btn_folder_configure "disabled"
       (Gui.btn_file_configure "disabled"
          (Gui.btn_convert_configure "disabled" "Convertendo..."
             (Gui.set_is_converting true picked)))).

(** And after the worker has ended. *)
Definition finished : Gui.Window :=
  Gui.show (Gui.ShowInfo "Sucesso" "Processo de conversão finalizado!")
    (Gui.btn_folder_configure "normal"
       (Gui.btn_file_configure "normal"
          (Gui.btn_convert_configure "normal" "Converter para PDF"
             (Gui.set_is_converting false converting)))).

End Fakes.

(** * Properties *)

(** ** The headless backend *)

Lemma headless_run (h : Host) (self : DocumentConverter) (executable : str)
    (input_path output_folder : str) (hist : history) :
  libreoffice_path self = Some executable ->
  _convert_with_libreoffice h self input_path output_folder hist
  = (Returned
       (headless_result h input_path
          (popen h hist (headless_command executable input_path output_folder)
                 (spawn_configuration h))),
     [ EvSubprocessRun (headless_command executable input_path output_folder)
                       (spawn_configuration h) ]).
Proof.
  intros Hpath.
  unfold _convert_with_libreoffice, try_except, bind, subprocess_run, call,
    headless_command, spawn_configuration, headless_result.
  rewrite Hpath.
  change (Z.lor 0 STARTF_USESHOWWINDOW) with 1%Z.
  destruct (popen h hist _ _) as [msg | rc out err]; cbn.
  - reflexivity.
  - destruct (rc =? 0)%Z; reflexivity.
Qed.

Lemma truthy_Some (o : option str) :
  truthy o = true -> exists s, o = Some s /\ s <> "".
Proof.
  destruct o as [s |]; cbn; [| discriminate].
  intros H. exists s. split; [reflexivity |].
  intros ->. discriminate.
Qed.

(** The headless backend always returns, and starts exactly one child
    when there is a path. *)
Lemma headless_returns (h : Host) (self : DocumentConverter)
    (input_path output_folder : str) (hist : history) :
  exists r evs,
    _convert_with_libreoffice h self input_path output_folder hist = (Returned r, evs)
    /\ ~ word_attempted evs.
Proof.
  destruct (libreoffice_path self) as [exe |] eqn:Hpath.
  - rewrite (headless_run h self exe _ _ _ Hpath).
    eexists; eexists; split; [reflexivity |].
    unfold word_attempted. cbn. intros [H | []]. discriminate.
  - unfold _convert_with_libreoffice, try_except, raise. rewrite Hpath. cbn.
    eexists; eexists; split; [reflexivity |].
    unfold word_attempted. cbn. tauto.
Qed.

(** C4: the headless converter is started as
    [<executable> --headless --convert-to pdf <input_file> --outdir <output_dir>];
    exit status 0 gives success with a message that names LibreOffice, any
    other exit status gives failure with the standard-error bytes decoded
    as UTF-8 with the invalid ones dropped, and a child that could not be
    started gives failure with the generic message. *)
Theorem headless_execution_result (h : Host) (self : DocumentConverter)
    (executable input_file output_dir : str) (hist : history) :
  libreoffice_path self = Some executable ->
  let cmd := [ executable; "--headless"; "--convert-to"; "pdf"; input_file;
               "--outdir"; output_dir ] in
  let startupinfo := if platform_system h =? "Windows" then Some 1%Z else None in
  emitted (_convert_with_libreoffice h self input_file output_dir) hist
    = [ EvSubprocessRun cmd startupinfo ]
  /\ (forall out err,
        popen h hist cmd startupinfo = Exited 0 out err ->
        fst (_convert_with_libreoffice h self input_file output_dir hist)
        = Returned (true, "Convertido com LibreOffice: " ++ basename h input_file))
  /\ (forall rc out err,
        popen h hist cmd startupinfo = Exited rc out err -> rc <> 0%Z ->
        fst (_convert_with_libreoffice h self input_file output_dir hist)
        = Returned (false, "Erro LibreOffice: " ++ decode_utf8_ignore err))
  /\ (forall msg,
        popen h hist cmd startupinfo = NotStarted msg ->
        fst (_convert_with_libreoffice h self input_file output_dir hist)
        = Returned (false, "Erro genérico LibreOffice: " ++ msg)).
Proof.
  intros Hpath cmd startupinfo.
  pose proof (headless_run h self executable input_file output_dir hist Hpath) as E.
  change (headless_command executable input_file output_dir) with cmd in E.
  change (spawn_configuration h) with startupinfo in E.
  unfold emitted. rewrite E. cbn [fst snd].
  split; [reflexivity |].
  split; [| split].
  - intros out err Hc. rewrite Hc. reflexivity.
  - intros rc out err Hc Hrc. rewrite Hc. cbn.
    destruct (Z.eqb_spec rc 0) as [-> | _]; [contradiction | reflexivity].
  - intros msg Hc. rewrite Hc. reflexivity.
Qed.

(** The decoder leaves ASCII data as it is. *)
Lemma decode_utf8_ignore_ascii (bs : bytes) :
  forallb (in_range 0 127) bs = true ->
  decode_utf8_ignore bs = string_of_list_ascii (map chr bs).
Proof.
  induction bs as [| b bs IH]; cbn [forallb map string_of_list_ascii].
  - reflexivity.
  - intros H. apply andb_prop in H as [Hb Hbs].
    cbn [decode_utf8_ignore]. rewrite Hb, (IH Hbs). reflexivity.
Qed.

(** Bytes that are not UTF-8 are dropped and the text around them kept:
    a lone [0xFF], a lead byte without its continuation, an encoded
    surrogate, an overlong form, a sequence cut by the end. *)
Example decode_utf8_ignore_invalid :
  decode_utf8_ignore [x45; x72; x72; x6f; xff; x21] = "Erro!"
  /\ decode_utf8_ignore [x6e; xc3; xa3; x6f] = "não"
  /\ decode_utf8_ignore [xc3; x6f; x6b] = "ok"
  /\ decode_utf8_ignore [xed; xa0; x80; x61] = "a"
  /\ decode_utf8_ignore [xc0; xaf; x62] = "b"
  /\ decode_utf8_ignore [x63; xe2; x82] = "c".
Proof. repeat split; reflexivity. Qed.

Lemma headless_execution_result_witness :
  libreoffice_path Hosts.headless_only = Some "soffice"
  /\ fst (_convert_with_libreoffice Hosts.linux Hosts.headless_only
            "/docs/quebrado.odt" "/docs" [])
     = Returned (false, "Erro LibreOffice: Erro!").
Proof.
  split; [reflexivity |].
  exact (proj1 (proj2 (proj2
    (headless_execution_result Hosts.linux Hosts.headless_only "soffice"
       "/docs/quebrado.odt" "/docs" [] eq_refl)))
    1%Z [] [x45; x72; x72; x6f; xff; x21] eq_refl ltac:(discriminate)).
Defined.

(** ** The dispatcher *)

(** The bridge is imported before anything else is done with it. *)
Lemma word_call_events (h : Host) (input_path output_folder : str) (hist : history) :
  exists r, word_call h input_path output_folder hist = (r, [EvImport "docx2pdf"])
            \/ word_call h input_path output_folder hist
               = (r, [EvImport "docx2pdf"; EvDocx2pdfConvert input_path output_folder]).
Proof.
  unfold word_call, bind, import_, convert, call.
  destruct (import_docx2pdf h hist) as [e |]; cbn.
  - exists (Raised e). left. reflexivity.
  - destruct (docx2pdf_convert h _ input_path output_folder) as [e |]; cbn;
      eexists; right; reflexivity.
Qed.

Lemma word_branch_returned (h : Host) (self : DocumentConverter)
    (input_path output_folder : str) (hist : history) (evs : list event) :
  word_call h input_path output_folder hist = (Returned tt, evs) ->
  word_branch h self input_path output_folder hist
  = (Returned (true, "Convertido com Word: " ++ basename h input_path), evs).
Proof.
  intros E. unfold word_branch, try_except, bind. rewrite E. cbn.
  rewrite app_nil_r. reflexivity.
Qed.

Lemma word_branch_raised (h : Host) (self : DocumentConverter)
    (input_path output_folder : str) (hist : history) (e : exn) (evs : list event) :
  word_call h input_path output_folder hist = (Raised e, evs) ->
  word_branch h self input_path output_folder hist
  = if truthy (libreoffice_path self)
    then (fst (_convert_with_libreoffice h self input_path output_folder (hist ++ evs)%list),
          (evs ++ snd (_convert_with_libreoffice h self input_path output_folder
                         (hist ++ evs)%list))%list)
    else (Returned (false, "Erro Word: " ++ str_exn h e), evs).
Proof.
  intros E. unfold word_branch, try_except, bind. rewrite E.
  destruct (truthy (libreoffice_path self)).
  - destruct (_convert_with_libreoffice h self input_path output_folder _).
    reflexivity.
  - cbn. rewrite app_nil_r. reflexivity.
Qed.

Lemma word_branch_starts_with_import (h : Host) (self : DocumentConverter)
    (input_path output_folder : str) (hist : history) :
  exists r evs,
    word_branch h self input_path output_folder hist
    = (Returned r, EvImport "docx2pdf" :: evs).
Proof.
  destruct (word_call h input_path output_folder hist) as [[[] | e] evs] eqn:E.
  - rewrite (word_branch_returned _ _ _ _ _ _ E).
    destruct (word_call_events h input_path output_folder hist) as [r [H | H]];
      rewrite H in E; inversion E; subst; eexists; eexists; reflexivity.
  - rewrite (word_branch_raised _ _ _ _ _ _ _ E).
    destruct (word_call_events h input_path output_folder hist) as [r [H | H]];
      rewrite H in E; inversion E; subst;
      (destruct (truthy (libreoffice_path self));
       [ match goal with
         | |- context [_convert_with_libreoffice _ _ _ _ ?hh] =>
             destruct (headless_returns h self input_path output_folder hh)
               as (r' & evs' & -> & _)
         end
       | ]; cbn; eexists; eexists; reflexivity).
Qed.

(** A rejected request. *)
Lemma convert_rejected (h : Host) (self : DocumentConverter)
    (input_path output_folder : str) (hist : history) :
  str_in (extension h input_path) (supported_extensions self) = false ->
  convert_to_pdf h self input_path output_folder hist
  = (Returned (false, "Extensão não suportada: " ++ extension h input_path), []).
Proof.
  intros H. unfold convert_to_pdf. fold (extension h input_path).
  rewrite H. reflexivity.
Qed.

(** An accepted request goes to the branch the policy selects. *)
Lemma convert_accepted (h : Host) (self : DocumentConverter)
    (input_path output_folder : str) (hist : history) :
  str_in (extension h input_path) (supported_extensions self) = true ->
  convert_to_pdf h self input_path output_folder hist
  = match select (has_word self) (truthy (libreoffice_path self))
                 (extension h input_path) with
    | WordProcessor => word_branch h self input_path output_folder hist
    | Headless => _convert_with_libreoffice h self input_path output_folder hist
    | NoConverter =>
        (Returned (false, "Nenhum conversor (Word ou LibreOffice) encontrado."), [])
    end.
Proof.
  intros H. unfold convert_to_pdf, select. fold (extension h input_path).
  rewrite H. cbn [negb str_in]. rewrite orb_false_r.
  destruct (has_word self && _); [reflexivity |].
  destruct (truthy (libreoffice_path self)); reflexivity.
Qed.

Lemma accepted_follows_policy (h : Host) (self : DocumentConverter)
    (input_path output_folder : str) (hist : history) :
  str_in (extension h input_path) (supported_extensions self) = true ->
  follows_policy h self (extension h input_path) input_path output_folder hist.
Proof.
  intros H. unfold follows_policy, emitted.
  rewrite (convert_accepted _ _ _ _ _ H).
  unfold select.
  destruct (has_word self && _).
  - destruct (word_branch_starts_with_import h self input_path output_folder hist)
      as (r & evs & ->).
    exists evs. reflexivity.
  - destruct (truthy (libreoffice_path self)) eqn:T; [| reflexivity].
    apply truthy_Some in T as (exe & Hexe & _).
    rewrite (headless_run h self exe _ _ _ Hexe). cbn [snd].
    split; [reflexivity |]. split.
    + eexists; eexists. left. reflexivity.
    + unfold word_attempted. cbn. intros [E | []]. discriminate.
Qed.

Lemma select_word (w l : bool) (ext : str) :
  select w l ext = WordProcessor
  <-> w = true /\ (ext = ".docx" \/ ext = ".doc").
Proof.
  unfold select.
  destruct w; cbn.
  - destruct (String.eqb_spec ext ".docx") as [-> | N1]; cbn.
    + tauto.
    + destruct (String.eqb_spec ext ".doc") as [-> | N2]; cbn.
      * tauto.
      * destruct l; split; try discriminate; intros [_ [E | E]]; contradiction.
  - destruct l; split; try discriminate; intros [E _]; discriminate.
Qed.

(** C1: on a request whose lowered extension is supported, the
    word-processor backend is attempted exactly when the word-processor
    capability is true and the extension is .docx or .doc; otherwise,
    when there is a headless-converter path, the call is the headless
    conversion whatever the extension; otherwise the result is the
    failure "no converter found" and nothing is invoked. *)
Theorem backend_selection (h : Host) (self : DocumentConverter)
    (input_path output_folder : str) (hist : history) :
  let ext := lower (lower_nonascii h) (snd (splitext h input_path)) in
  let evs := emitted (convert_to_pdf h self input_path output_folder) hist in
  str_in ext (supported_extensions self) = true ->
  (word_attempted evs
   <-> has_word self = true /\ (ext = ".docx" \/ ext = ".doc"))
  /\ (has_word self = true /\ (ext = ".docx" \/ ext = ".doc") ->
      exists evs', evs = EvImport "docx2pdf" :: evs')
  /\ (~ (has_word self = true /\ (ext = ".docx" \/ ext = ".doc")) ->
      truthy (libreoffice_path self) = true ->
      convert_to_pdf h self input_path output_folder hist
      = _convert_with_libreoffice h self input_path output_folder hist
      /\ headless_attempted evs)
  /\ (~ (has_word self = true /\ (ext = ".docx" \/ ext = ".doc")) ->
      truthy (libreoffice_path self) = false ->
      convert_to_pdf h self input_path output_folder hist
      = (Returned (false, "Nenhum conversor (Word ou LibreOffice) encontrado."), [])).
Proof.
  intros ext evs H.
  pose proof (accepted_follows_policy h self input_path output_folder hist H) as P.
  fold (extension h input_path) in ext. subst ext.
  unfold follows_policy in P. fold evs in P.
  pose proof (select_word (has_word self) (truthy (libreoffice_path self))
                (extension h input_path)) as W.
  destruct (select _ _ _) eqn:S.
  - destruct P as [evs' E].
    split; [| split; [| split]].
    + split; [intros _; apply W; reflexivity |].
      intros _. rewrite E. left. reflexivity.
    + intros _. exists evs'. exact E.
    + intros N. exfalso. apply N, W. reflexivity.
    + intros N. exfalso. apply N, W. reflexivity.
  - destruct P as (E & Hh & Hw).
    assert (N : ~ (has_word self = true
                   /\ (extension h input_path = ".docx" \/ extension h input_path = ".doc"))).
    { intros C. apply W in C. discriminate. }
    split; [| split; [| split]].
    + split; [intros A; contradiction | intros C; contradiction].
    + intros C. contradiction.
    + intros _ _. split; assumption.
    + intros _ T. unfold select in S. rewrite T in S.
      destruct (has_word self && _); discriminate.
  - assert (N : ~ (has_word self = true
                   /\ (extension h input_path = ".docx" \/ extension h input_path = ".doc"))).
    { intros C. apply W in C. discriminate. }
    assert (Hevs : evs = []) by (unfold evs, emitted; rewrite P; reflexivity).
    split; [| split; [| split]].
    + split; [rewrite Hevs; intros [] | intros C; contradiction].
    + intros C. contradiction.
    + intros _ T. unfold select in S. rewrite T in S.
      destruct (has_word self && _); discriminate.
    + intros _ _. exact P.
Qed.

Lemma backend_selection_witness :
  str_in (extension Hosts.linux "/docs/ata.odt")
         (supported_extensions Hosts.both) = true
  /\ headless_attempted
       (emitted (convert_to_pdf Hosts.linux Hosts.both "/docs/ata.odt" "/docs") []).
Proof.
  split; [reflexivity |].
  refine (proj2 (proj1 (proj2 (proj2
    (backend_selection Hosts.linux Hosts.both "/docs/ata.odt" "/docs" [] eq_refl)))
    _ eq_refl)).
  intros [_ [E | E]]; discriminate E.
Defined.

(** The bridge never starts a child process. *)
Lemma word_call_no_child (h : Host) (input_path output_folder : str)
    (hist : history) :
  ~ headless_attempted (emitted (word_call h input_path output_folder) hist).
Proof.
  unfold emitted.
  destruct (word_call_events h input_path output_folder hist) as [r [-> | ->]];
    cbn; intros (cmd & si & H); cbn in H;
    repeat (destruct H as [H | H]; [discriminate H |]); exact H.
Qed.

(** C2: when the word-processor backend is attempted and the automation
    call raises, [convert_to_pdf] returns what the headless conversion of
    the same request returns if there is a headless-converter path; if
    there is none it returns failure with the text of the error, and
    the headless backend is not attempted. *)
Theorem word_failure_fallback (h : Host) (self : DocumentConverter)
    (input_path output_folder : str) (hist : history) (e : exn) (evs : list event) :
  let ext := lower (lower_nonascii h) (snd (splitext h input_path)) in
  str_in ext (supported_extensions self) = true ->
  has_word self = true ->
  ext = ".docx" \/ ext = ".doc" ->
  word_call h input_path output_folder hist = (Raised e, evs) ->
  (truthy (libreoffice_path self) = true ->
   let fallback :=
     _convert_with_libreoffice h self input_path output_folder (hist ++ evs)%list in
   convert_to_pdf h self input_path output_folder hist
   = (fst fallback, (evs ++ snd fallback)%list)
   /\ headless_attempted (snd fallback))
  /\ (truthy (libreoffice_path self) = false ->
      convert_to_pdf h self input_path output_folder hist
      = (Returned (false, "Erro Word: " ++ str_exn h e), evs)
      /\ ~ headless_attempted evs).
Proof.
  intros ext Hs Hw Hext E.
  fold (extension h input_path) in ext. subst ext.
  rewrite (convert_accepted _ _ _ _ _ Hs).
  assert (S : select (has_word self) (truthy (libreoffice_path self))
                (extension h input_path) = WordProcessor).
  { apply select_word. split; assumption. }
  rewrite S, (word_branch_raised _ _ _ _ _ _ _ E).
  split; intros T; rewrite T.
  - intros fallback. split; [reflexivity |].
    apply truthy_Some in T as (exe & Hexe & _).
    subst fallback. rewrite (headless_run h self exe _ _ _ Hexe). cbn [snd].
    eexists; eexists. left. reflexivity.
  - split; [reflexivity |].
    pose proof (word_call_no_child h input_path output_folder hist) as N.
    unfold emitted in N. rewrite E in N. exact N.
Qed.

Lemma word_failure_fallback_witness :
  word_call Hosts.linux "/docs/carta.docx" "/docs" []
    = (Raised (ImportError "No module named 'docx2pdf'"), [EvImport "docx2pdf"])
  /\ convert_to_pdf Hosts.linux Hosts.word_only "/docs/carta.docx" "/docs" []
     = (Returned (false, "Erro Word: No module named 'docx2pdf'"),
        [EvImport "docx2pdf"]).
Proof.
  split; [reflexivity |].
  exact (proj1 (proj2
    (word_failure_fallback Hosts.linux Hosts.word_only "/docs/carta.docx" "/docs" []
       (ImportError "No module named 'docx2pdf'") [EvImport "docx2pdf"]
       eq_refl eq_refl (or_introl eq_refl) eq_refl) eq_refl)).
Defined.

(** C3, as the code has it: a request whose extension, lowered, is not
    among the supported ones is answered with failure and a message that
    ends with that extension, and nothing is invoked, whatever the
    capabilities. *)
Theorem unsupported_rejected (h : Host) (self : DocumentConverter)
    (input_path output_folder : str) (hist : history) :
  let ext := lower (lower_nonascii h) (snd (splitext h input_path)) in
  ~ In ext (supported_extensions self) ->
  convert_to_pdf h self input_path output_folder hist
  = (Returned (false, "Extensão não suportada: " ++ ext), []).
Proof.
  intros ext N. apply convert_rejected.
  fold (extension h input_path) in ext. fold ext.
  clearbody ext.
  induction (supported_extensions self) as [| y ys IH]; [reflexivity |].
  cbn [str_in]. destruct (String.eqb_spec ext y) as [-> | _].
  - exfalso. apply N. left. reflexivity.
  - cbn. apply IH. intros I. apply N. right. exact I.
Qed.

Lemma unsupported_rejected_witness :
  ~ In (extension Hosts.linux "/docs/notas.txt") (supported_extensions Hosts.both)
  /\ convert_to_pdf Hosts.linux Hosts.both "/docs/notas.txt" "/docs" []
     = (Returned (false, "Extensão não suportada: .txt"), []).
Proof.
  assert (N : ~ In (extension Hosts.linux "/docs/notas.txt")
                   (supported_extensions Hosts.both)).
  { cbn. intros H.
    repeat (destruct H as [H | H]; [discriminate H |]). exact H. }
  split; [exact N |].
  exact (unsupported_rejected Hosts.linux Hosts.both "/docs/notas.txt" "/docs" [] N).
Defined.

(** C3, as it is worded, fails: the extension [.DOCX] is none of .docx,
    .doc, .odt and .rtf, and the request is converted by the headless
    backend. *)
Lemma unsupported_rejected_counterexample :
  snd (splitext Hosts.linux "/docs/relatorio.DOCX") = ".DOCX"
  /\ ~ In ".DOCX" [".docx"; ".doc"; ".odt"; ".rtf"]
  /\ convert_to_pdf Hosts.linux Hosts.headless_only "/docs/relatorio.DOCX" "/docs" []
     = (Returned (true, "Convertido com LibreOffice: relatorio.DOCX"),
        [ EvSubprocessRun
            [ "soffice"; "--headless"; "--convert-to"; "pdf";
              "/docs/relatorio.DOCX"; "--outdir"; "/docs" ] None ]).
Proof.
  split; [reflexivity |].
  split; [| reflexivity].
  cbn. intros H.
  repeat (destruct H as [H | H]; [discriminate H |]). exact H.
Qed.

(** ** Letter case *)

Lemma same_letter_lower (c d : ascii) :
  plain d = true -> same_letter c d = true ->
  is_ascii c = true /\ lower_char c = d.
Proof.
  unfold plain, same_letter. intros Hd H.
  apply andb_prop in Hd as [Ha Hu].
  apply negb_true_iff in Hu.
  rewrite Hu in H. cbn [andb] in H. rewrite orb_false_r in H.
  apply orb_prop in H as [H | H].
  - apply Ascii.eqb_eq in H. subst c.
    split; [exact Ha |]. unfold lower_char. rewrite Hu. reflexivity.
  - apply andb_prop in H as [Hc H]. apply Ascii.eqb_eq in H.
    split.
    + unfold is_upper in Hc. unfold is_ascii.
      apply andb_prop in Hc as [_ Hc].
      apply N.leb_le in Hc. apply N.ltb_lt. lia.
    + unfold lower_char. rewrite Hc. exact H.
Qed.

Lemma lower_from_case_variant (nonascii : str -> nat -> str) (whole : str)
    (t : str) :
  forall (i : nat) (s : str),
    forallb plain (list_ascii_of_string t) = true ->
    differs_only_in_case s t = true ->
    lower_from nonascii whole i s = t.
Proof.
  induction t as [| d t IH]; intros i [| c s] Hp H; cbn in H; try discriminate.
  - reflexivity.
  - cbn in Hp. apply andb_prop in Hp as [Hd Hp].
    apply andb_prop in H as [Hc H].
    destruct (same_letter_lower c d Hd Hc) as [Ha Hl].
    cbn [lower_from]. rewrite Ha, Hl, (IH (S i) s Hp H). reflexivity.
Qed.

Lemma lower_case_variant (nonascii : str -> nat -> str) (s t : str) :
  In t [".docx"; ".doc"; ".odt"; ".rtf"] ->
  differs_only_in_case s t = true ->
  lower nonascii s = t.
Proof.
  intros I H. apply lower_from_case_variant; [| exact H].
  cbn in I.
  repeat (destruct I as [<- | I]; [reflexivity |]). destruct I.
Qed.

Lemma str_in_In (x : str) (xs : list str) : In x xs -> str_in x xs = true.
Proof.
  induction xs as [| y ys IH]; cbn; [intros [] |].
  intros [-> | I].
  - rewrite String.eqb_refl. reflexivity.
  - rewrite (IH I). apply orb_true_r.
Qed.

(** C9: extension matching is case-insensitive.  When the extension of
    the input differs from a supported one only in letter case, the
    extension tested is the supported one, the request is not answered
    with the rejection of an unsupported extension, and it goes through
    the selection policy as the lowercase form does; the folder scan
    keeps the file by the same test. *)
Theorem extension_case_insensitive (h : Host) (self : DocumentConverter)
    (input_path output_folder : str) (hist : history) (supported : str) :
  supported_extensions self = [".docx"; ".doc"; ".odt"; ".rtf"] ->
  In supported (supported_extensions self) ->
  differs_only_in_case (snd (splitext h input_path)) supported = true ->
  lower (lower_nonascii h) (snd (splitext h input_path)) = supported
  /\ convert_to_pdf h self input_path output_folder hist
     <> (Returned (false, "Extensão não suportada: " ++ supported), [])
  /\ follows_policy h self supported input_path output_folder hist
  /\ is_compatible h self input_path = true.
Proof.
  intros Hexts I V.
  assert (L : extension h input_path = supported).
  { apply lower_case_variant; [rewrite <- Hexts; exact I | exact V]. }
  assert (Hs : str_in (extension h input_path) (supported_extensions self) = true).
  { rewrite L. apply str_in_In, I. }
  pose proof (accepted_follows_policy h self input_path output_folder hist Hs) as P.
  rewrite L in P.
  split; [exact L |]. split; [| split; [exact P | exact Hs]].
  intros C. unfold follows_policy, emitted in P. rewrite C in P.
  destruct (select _ _ _).
  - destruct P as [evs P]. discriminate P.
  - destruct P as (_ & (cmd & si & []) & _).
  - discriminate P.
Qed.

Lemma extension_case_insensitive_witness :
  differs_only_in_case (snd (splitext Hosts.linux "/docs/Memo.Rtf")) ".rtf" = true
  /\ lower (lower_nonascii Hosts.linux) (snd (splitext Hosts.linux "/docs/Memo.Rtf"))
     = ".rtf".
Proof.
  split; [reflexivity |].
  exact (proj1
    (extension_case_insensitive Hosts.linux Hosts.headless_only "/docs/Memo.Rtf"
       "/docs" [] ".rtf" eq_refl
       (or_intror (or_intror (or_intror (or_introl eq_refl)))) eq_refl)).
Defined.

(** ** The capability probes *)

(** C5: the word-processor probe answers true only on Windows and only
    when the bridge library imports; on any other system it answers
    false without trying the import, whether the library is there or
    not. *)
Theorem word_probe (h : Machine) (hist : history) :
  (fst (_check_word_installed h hist) = Returned true
   <-> platform_system h = "Windows" /\ import_docx2pdf h hist = None)
  /\ (platform_system h <> "Windows" ->
      _check_word_installed h hist = (Returned false, [])).
Proof.
  unfold _check_word_installed, try_except, bind, import_, call.
  destruct (String.eqb_spec (platform_system h) "Windows") as [W | W]; cbn [negb].
  - split; [| intros N; contradiction].
    destruct (import_docx2pdf h hist) as [[msg | rc cmd out err | msg] |]; cbn;
      (split; [ intros E; first [discriminate E | split; [assumption | reflexivity]]
              | intros [_ E]; first [discriminate E | reflexivity] ]).
  - split; [| reflexivity].
    cbn. split; [intros E; discriminate E | intros [E _]; contradiction].
Qed.

Lemma word_probe_witness :
  _check_word_installed Hosts.windows [] = (Returned true, [EvImport "docx2pdf"])
  /\ fst (_check_word_installed Hosts.windows []) = Returned true
  /\ _check_word_installed (Hosts.bare "Linux") [] = (Returned false, []).
Proof.
  split; [reflexivity |]. split.
  - exact (proj2 (proj1 (word_probe Hosts.windows [])) (conj eq_refl eq_refl)).
  - exact (proj2 (word_probe (Hosts.bare "Linux") []) ltac:(discriminate)).
Defined.

Lemma after_loop_run (h : Machine) (hist : history) :
  (available <- _is_command_available h "soffice" ;;
   ret (if available then Some "soffice" else None)) hist
  = (Returned (bare_name h hist), [EvWhich "soffice"]).
Proof.
  unfold _is_command_available, bind, which, call, ret, bare_name.
  destruct (shutil_which h hist "soffice"); reflexivity.
Qed.

(** C6: on Windows the probe checks the two install paths in their
    order and returns the first that exists; on a Mac it checks the one
    install path; when these checks all fail it returns the bare name
    [soffice] if the search path resolves it and [None] otherwise. *)
Theorem libreoffice_resolution (h : Machine) (hist : history) :
  (platform_system h = "Windows" ->
   let p1 := "C:\Program Files\LibreOffice\program\soffice.exe" in
   let p2 := "C:\Program Files (x86)\LibreOffice\program\soffice.exe" in
   _find_libreoffice h hist
   = if os_path_exists h hist p1 then
       (Returned (Some p1), [EvPathExists p1])
     else if os_path_exists h (hist ++ [EvPathExists p1])%list p2 then
       (Returned (Some p2), [EvPathExists p1; EvPathExists p2])
     else
       (Returned (bare_name h (hist ++ [EvPathExists p1; EvPathExists p2])%list),
        [EvPathExists p1; EvPathExists p2; EvWhich "soffice"]))
  /\ (platform_system h = "Darwin" ->
      let p := "/Applications/LibreOffice.app/Contents/MacOS/soffice" in
      _find_libreoffice h hist
      = if os_path_exists h hist p then
          (Returned (Some p), [EvPathExists p])
        else
          (Returned (bare_name h (hist ++ [EvPathExists p])%list),
           [EvPathExists p; EvWhich "soffice"])).
Proof.
  split; [intros S p1 p2 | intros S p]; unfold _find_libreoffice; rewrite S.
  - change ("Windows" =? "Windows") with true. cbv iota. cbn [for_path_in].
    fold p1 p2.
    unfold bind at 1. unfold exists_ at 1. unfold call at 1.
    destruct (os_path_exists h hist p1); [reflexivity |].
    unfold bind at 1. unfold exists_ at 1. unfold call at 1.
    destruct (os_path_exists h _ p2); [reflexivity |].
    rewrite after_loop_run. rewrite <- app_assoc. reflexivity.
  - change ("Darwin" =? "Windows") with false.
    change ("Darwin" =? "Darwin") with true. cbv iota. cbn [for_path_in].
    fold p.
    unfold bind at 1. unfold exists_ at 1. unfold call at 1.
    destruct (os_path_exists h hist p); [reflexivity |].
    rewrite after_loop_run. reflexivity.
Qed.

Lemma libreoffice_resolution_witness :
  platform_system Hosts.windows = "Windows"
  /\ _find_libreoffice Hosts.windows []
     = (Returned (Some "C:\Program Files (x86)\LibreOffice\program\soffice.exe"),
        [ EvPathExists "C:\Program Files\LibreOffice\program\soffice.exe";
          EvPathExists "C:\Program Files (x86)\LibreOffice\program\soffice.exe" ]).
Proof.
  split; [reflexivity |].
  exact (proj1 (libreoffice_resolution Hosts.windows []) eq_refl).
Defined.

Lemma word_probe_returns (h : Machine) (hist : history) :
  exists b evs, _check_word_installed h hist = (Returned b, evs).
Proof.
  unfold _check_word_installed, try_except, bind, import_, call.
  destruct (negb _); [eexists; eexists; reflexivity |].
  destruct (import_docx2pdf h hist) as [[msg | rc cmd out err | msg] |]; cbn;
    eexists; eexists; reflexivity.
Qed.

Lemma for_path_in_returns (h : Machine) (paths : list str) (rest : M (option str)) :
  (forall hist, exists p evs,
      rest hist = (Returned p, evs) /\ (p = None \/ exists s, p = Some s /\ s <> "")) ->
  Forall (fun path => path <> "") paths ->
  forall hist, exists p evs,
    for_path_in h paths rest hist = (Returned p, evs)
    /\ (p = None \/ exists s, p = Some s /\ s <> "").
Proof.
  intros Hrest Hpaths. induction Hpaths as [| path paths Hne _ IH]; intros hist.
  - apply Hrest.
  - cbn [for_path_in]. unfold bind, exists_, call.
    destruct (os_path_exists h hist path).
    + cbn. eexists; eexists. split; [reflexivity |].
      right. exists path. split; [reflexivity | exact Hne].
    + destruct (IH (hist ++ [EvPathExists path])%list) as (p & evs & -> & Hp).
      eexists; eexists. split; [reflexivity | exact Hp].
Qed.

Lemma libreoffice_probe_returns (h : Machine) (hist : history) :
  exists p evs,
    _find_libreoffice h hist = (Returned p, evs)
    /\ (p = None \/ exists s, p = Some s /\ s <> "").
Proof.
  assert (Hrest : forall hist', exists p evs,
             (available <- _is_command_available h "soffice" ;;
              ret (if available then Some "soffice" else None)) hist'
             = (Returned p, evs)
             /\ (p = None \/ exists s, p = Some s /\ s <> "")).
  { intros hist'. rewrite after_loop_run. eexists; eexists.
    split; [reflexivity |]. unfold bare_name.
    destruct (shutil_which h hist' "soffice"); [right | left; reflexivity].
    exists "soffice". split; [reflexivity | discriminate]. }
  unfold _find_libreoffice. cbv zeta.
  destruct (platform_system h =? "Windows").
  - apply for_path_in_returns; [exact Hrest |].
    repeat constructor; discriminate.
  - destruct (platform_system h =? "Darwin").
    + apply for_path_in_returns; [exact Hrest |].
      repeat constructor; discriminate.
    + eexists; eexists. split; [reflexivity |].
      right. exists "soffice". split; [reflexivity | discriminate].
Qed.

(** C8: on every machine and after any history both probes return:
    the word-processor probe a boolean, the headless probe [None] or a
    path that is not empty; a capability that is absent is [false] or
    [None], no exception reaches the caller, and so the constructor
    returns too. *)
Theorem probing_raises_nothing (h : Machine) (hist : history) :
  (exists b evs, _check_word_installed h hist = (Returned b, evs))
  /\ (exists p evs,
        _find_libreoffice h hist = (Returned p, evs)
        /\ (truthy p = false <-> p = None))
  /\ (exists self evs, __init__ h hist = (Returned self, evs)).
Proof.
  split; [apply word_probe_returns |]. split.
  - destruct (libreoffice_probe_returns h hist) as (p & evs & E & Hp).
    exists p, evs. split; [exact E |].
    destruct Hp as [-> | (s & -> & Hs)].
    + split; reflexivity.
    + cbn. destruct (String.eqb_spec s "") as [-> | _]; [contradiction |].
      split; discriminate.
  - unfold __init__, bind.
    destruct (word_probe_returns h hist) as (b & evs & ->).
    destruct (libreoffice_probe_returns h (hist ++ evs)%list) as (p & evs' & -> & _).
    cbn. eexists; eexists; reflexivity.
Qed.

(** ** Hosts that are neither Windows nor Mac *)

Lemma unix_find_libreoffice (h : Machine) (hist : history) :
  platform_system h <> "Windows" -> platform_system h <> "Darwin" ->
  _find_libreoffice h hist = (Returned (Some "soffice"), []).
Proof.
  intros W D. unfold _find_libreoffice. cbv zeta.
  apply String.eqb_neq in W, D. rewrite W, D. reflexivity.
Qed.

Lemma word_probe_elsewhere (h : Machine) (hist : history) :
  platform_system h <> "Windows" ->
  _check_word_installed h hist = (Returned false, []).
Proof.
  intros W. unfold _check_word_installed.
  apply String.eqb_neq in W. rewrite W. reflexivity.
Qed.

Lemma unix_init (h : Machine) (hist : history) :
  platform_system h <> "Windows" -> platform_system h <> "Darwin" ->
  __init__ h hist
  = (Returned {| has_word := false; libreoffice_path := Some "soffice";
                 supported_extensions := [".docx"; ".doc"; ".odt"; ".rtf"] |}, []).
Proof.
  intros W D. unfold __init__, bind.
  rewrite (word_probe_elsewhere h hist W).
  rewrite (unix_find_libreoffice h _ W D). reflexivity.
Qed.

(** C10: on a host that is neither Windows nor Mac the headless probe
    returns the bare name [soffice] and consults nothing, so the
    converter it builds always has a headless path; [convert_to_pdf]
    then never answers "no converter found", and a converter that is
    not there shows only when the child cannot be started, as the
    generic execution error. *)
Theorem unix_headless_never_absent (h : Host) (hist : history) :
  platform_system h <> "Windows" ->
  platform_system h <> "Darwin" ->
  _find_libreoffice h hist = (Returned (Some "soffice"), [])
  /\ forall self evs,
       __init__ h hist = (Returned self, evs) ->
       libreoffice_path self = Some "soffice"
       /\ (forall input_path output_folder hist',
             fst (convert_to_pdf h self input_path output_folder hist')
             <> Returned (false, "Nenhum conversor (Word ou LibreOffice) encontrado."))
       /\ (forall input_path output_folder hist' msg,
             str_in (lower (lower_nonascii h) (snd (splitext h input_path)))
                    (supported_extensions self) = true ->
             popen h hist'
                   [ "soffice"; "--headless"; "--convert-to"; "pdf"; input_path;
                     "--outdir"; output_folder ] None
             = NotStarted msg ->
             convert_to_pdf h self input_path output_folder hist'
             = (Returned (false, "Erro genérico LibreOffice: " ++ msg),
                [ EvSubprocessRun
                    [ "soffice"; "--headless"; "--convert-to"; "pdf"; input_path;
                      "--outdir"; output_folder ] None ])).
Proof.
  intros W D. split; [apply unix_find_libreoffice; assumption |].
  intros self evs E. rewrite (unix_init h hist W D) in E.
  inversion E; subst self evs; clear E.
  set (self := {| has_word := false; libreoffice_path := Some "soffice";
                  supported_extensions := [".docx"; ".doc"; ".odt"; ".rtf"] |}).
  assert (Hc : spawn_configuration h = None).
  { unfold spawn_configuration. apply String.eqb_neq in W. rewrite W. reflexivity. }
  assert (Hrun : forall input_path output_folder hist',
             str_in (extension h input_path) (supported_extensions self) = true ->
             convert_to_pdf h self input_path output_folder hist'
             = (Returned
                  (headless_result h input_path
                     (popen h hist' (headless_command "soffice" input_path output_folder)
                            None)),
                [ EvSubprocessRun (headless_command "soffice" input_path output_folder)
                                  None ])).
  { intros input_path output_folder hist' Hs.
    rewrite (convert_accepted _ _ _ _ _ Hs). cbn [select has_word andb].
    unfold select. cbn [has_word libreoffice_path self truthy andb negb String.eqb].
    rewrite (headless_run h self "soffice" _ _ _ eq_refl), Hc. reflexivity. }
  split; [reflexivity |]. split.
  - intros input_path output_folder hist'.
    destruct (str_in (extension h input_path) (supported_extensions self)) eqn:Hs.
    + rewrite (Hrun _ _ _ Hs). cbn [fst]. unfold headless_result.
      destruct (popen h hist' _ None) as [msg | rc out err].
      * cbn. intros C. inversion C.
      * destruct (rc =? 0)%Z; cbn; intros C; inversion C.
    + rewrite (convert_rejected _ _ _ _ _ Hs). cbn. intros C. inversion C.
  - intros input_path output_folder hist' msg Hs Hp.
    fold (extension h input_path) in Hs.
    rewrite (Hrun _ _ _ Hs). unfold headless_command, str in *. rewrite Hp. reflexivity.
Qed.

Lemma unix_headless_never_absent_witness :
  platform_system Hosts.linux <> "Windows"
  /\ platform_system Hosts.linux <> "Darwin"
  /\ _find_libreoffice Hosts.linux [] = (Returned (Some "soffice"), []).
Proof.
  assert (W : platform_system Hosts.linux <> "Windows") by discriminate.
  assert (D : platform_system Hosts.linux <> "Darwin") by discriminate.
  split; [exact W |]. split; [exact D |].
  exact (proj1 (unix_headless_never_absent Hosts.linux [] W D)).
Defined.

(** ** The batch worker *)

Lemma bind_run {A B} (m : M A) (f : A -> M B) (hist : history)
    (a : A) (evs : list event) (r : outcome B) (evs' : list event) :
  m hist = (Returned a, evs) ->
  f a (hist ++ evs)%list = (r, evs') ->
  bind m f hist = (r, (evs ++ evs')%list).
Proof.
  intros E F. unfold bind. rewrite E, F. reflexivity.
Qed.

(** [convert_to_pdf] raises nothing: every request gets its pair. *)
Lemma convert_returns (h : Host) (self : DocumentConverter)
    (input_path output_folder : str) (hist : history) :
  exists success msg evs,
    convert_to_pdf h self input_path output_folder hist
    = (Returned (success, msg), evs).
Proof.
  destruct (str_in (extension h input_path) (supported_extensions self)) eqn:Hs.
  - rewrite (convert_accepted _ _ _ _ _ Hs).
    destruct (select _ _ _).
    + destruct (word_branch_starts_with_import h self input_path output_folder hist)
        as ([success msg] & evs & ->).
      eexists; eexists; eexists; reflexivity.
    + destruct (headless_returns h self input_path output_folder hist)
        as ([success msg] & evs & -> & _).
      eexists; eexists; eexists; reflexivity.
    + eexists; eexists; eexists; reflexivity.
  - rewrite (convert_rejected _ _ _ _ _ Hs).
    eexists; eexists; eexists; reflexivity.
Qed.

Lemma successes_failures (results : list (bool * str)) :
  successes results = List.length results - failures results.
Proof.
  unfold successes, failures.
  induction results as [| [[] msg] results IH]; cbn [filter fst negb List.length].
  - reflexivity.
  - rewrite IH.
    pose proof (filter_length_le (fun r => negb (fst r)) results). lia.
  - rewrite IH. reflexivity.
Qed.

Lemma for_file_in_run (h : Host) (self : ConverterApp) (total : nat)
    (files : list str) :
  forall (i : nat) (success_count : nat) (hist : history),
  exists results evs,
    converted_in_order h (converter self) total i hist files results evs
    /\ List.length results = List.length files
    /\ for_file_in h self total i files success_count hist
       = (Returned (success_count + successes results), evs).
Proof.
  induction files as [| file_path files IH]; intros i success_count hist.
  - exists [], []. split; [constructor |]. split; [reflexivity |].
    cbn. unfold ret. rewrite Nat.add_0_r. reflexivity.
  - destruct (convert_returns h (converter self) file_path (dirname h file_path) hist)
      as (success & msg & evs & E).
    set (line := [ EvLog (report success msg); EvProgress (S i) total ]).
    destruct (IH (S i) (success_count + (if success then 1 else 0))
                 (hist ++ evs ++ line)%list)
      as (results & evs' & Hc & Hl & Hr).
    exists ((success, msg) :: results), (evs ++ line ++ evs')%list.
    split; [econstructor; eassumption |].
    split; [cbn; rewrite Hl; reflexivity |].
    assert (Hcount : success_count + successes ((success, msg) :: results)
                     = success_count + (if success then 1 else 0) + successes results).
    { unfold successes. cbn [filter fst].
      destruct success; cbn [List.length]; lia. }
    rewrite Hcount.
    assert (Hreport :
      forall hist',
        (if success
         then log_message ("[OK] " ++ msg) ;; ret (success_count + 1)
         else log_message ("[ERRO] " ++ msg) ;; ret success_count) hist'
        = (Returned (success_count + (if success then 1 else 0)),
           [EvLog (report success msg)])).
    { intros hist'. unfold report. destruct success; cbn.
      - reflexivity.
      - rewrite Nat.add_0_r. reflexivity. }
    cbn [for_file_in]. rewrite (Nat.add_1_r i).
    change (evs ++ line ++ evs')%list
      with (evs ++ [EvLog (report success msg)]
                ++ [EvProgress (S i) total] ++ evs')%list.
    eapply bind_run; [exact E |]. cbn [fst snd].
    eapply bind_run; [apply Hreport |].
    eapply bind_run; [reflexivity |].
    rewrite <- !app_assoc. exact Hr.
Qed.

(** C7: a batch of N files of which K fail, wherever the failures fall:
    the worker converts each of the N files, one after the other in the
    order of the selection, no failure ends the loop or skips a file, and
    the summary reports N - K converted out of N. *)
Theorem batch_processes_all (h : Host) (self : ConverterApp) (hist : history) :
  let N := List.length (selected_files self) in
  let opening := [ EvLog "------------------------------";
                   EvLog "Iniciando conversão..." ] in
  exists results evs,
    converted_in_order h (converter self) N 0 (hist ++ opening)%list
                       (selected_files self) results evs
    /\ List.length results = N
    /\ let K := failures results in
       let summary := "Concluído! " ++ str_of_nat (N - K) ++ "/" ++ str_of_nat N
                      ++ " arquivos convertidos." in
       run_conversion h self hist
       = (Returned tt,
          (opening ++ evs
           ++ [ EvLog "------------------------------"; EvLog summary;
                EvAfter 0 "reset_ui" ])%list).
Proof.
  intros N opening.
  destruct (for_file_in_run h self N (selected_files self) 0 0 (hist ++ opening)%list)
    as (results & evs & Hc & Hl & Hr).
  exists results, evs. split; [exact Hc |]. split; [exact Hl |].
  intros K summary. unfold run_conversion. fold N.
  change (str_mul "-" 30) with "------------------------------".
  change (opening ++ evs
          ++ [ EvLog "------------------------------"; EvLog summary;
               EvAfter 0 "reset_ui" ])%list
    with ([EvLog "------------------------------"]
          ++ [EvLog "Iniciando conversão..."]
          ++ evs
          ++ [EvLog "------------------------------"]
          ++ [EvLog summary] ++ [EvAfter 0 "reset_ui"])%list.
  eapply bind_run; [reflexivity |].
  eapply bind_run; [reflexivity |].
  eapply bind_run; [rewrite <- app_assoc; exact Hr |].
  eapply bind_run; [reflexivity |].
  cbn [plus]. rewrite successes_failures, Hl. fold K. fold summary.
  eapply bind_run; reflexivity.
Qed.

(** Three files, the second of which fails. *)
Example batch_of_three :
  emitted (run_conversion Hosts.linux
             {| converter := Hosts.headless_only;
                selected_files := ["/a/x.doc"; "/a/quebrado.odt"; "/b/y.RTF"] |}) []
  = [ EvLog "------------------------------";
      EvLog "Iniciando conversão...";
      EvSubprocessRun [ "soffice"; "--headless"; "--convert-to"; "pdf"; "/a/x.doc";
                        "--outdir"; "/a" ] None;
      EvLog "[OK] Convertido com LibreOffice: x.doc";
      EvProgress 1 3;
      EvSubprocessRun [ "soffice"; "--headless"; "--convert-to"; "pdf";
                        "/a/quebrado.odt"; "--outdir"; "/a" ] None;
      EvLog "[ERRO] Erro LibreOffice: Erro!";
      EvProgress 2 3;
      EvSubprocessRun [ "soffice"; "--headless"; "--convert-to"; "pdf"; "/b/y.RTF";
                        "--outdir"; "/b" ] None;
      EvLog "[OK] Convertido com LibreOffice: y.RTF";
      EvProgress 3 3;
      EvLog "------------------------------";
      EvLog "Concluído! 2/3 arquivos convertidos.";
      EvAfter 0 "reset_ui" ].
Proof. reflexivity. Qed.

(** * Further properties of the dispatcher *)

(** The three ways the bridge can go: the import fails, the call
    fails, or both go through. *)
Lemma word_call_cases (h : Host) (input_path output_folder : str) (hist : history) :
  (exists e,
      import_docx2pdf h hist = Some e
      /\ word_call h input_path output_folder hist
         = (Raised e, [EvImport "docx2pdf"]))
  \/ (exists e,
        import_docx2pdf h hist = None
        /\ docx2pdf_convert h (hist ++ [EvImport "docx2pdf"])%list
                            input_path output_folder = Some e
        /\ word_call h input_path output_folder hist
           = (Raised e, [EvImport "docx2pdf";
                         EvDocx2pdfConvert input_path output_folder]))
  \/ (import_docx2pdf h hist = None
      /\ docx2pdf_convert h (hist ++ [EvImport "docx2pdf"])%list
                          input_path output_folder = None
      /\ word_call h input_path output_folder hist
         = (Returned tt, [EvImport "docx2pdf";
                          EvDocx2pdfConvert input_path output_folder])).
Proof.
  unfold word_call, bind, import_, convert, call.
  destruct (import_docx2pdf h hist) as [e |]; cbn.
  - left. exists e. split; reflexivity.
  - destruct (docx2pdf_convert h _ input_path output_folder) as [e |] eqn:C; cbn.
    + right; left. exists e. repeat split; reflexivity.
    + right; right. repeat split; reflexivity.
Qed.

(** The events of one request: what the bridge adds, then what the
    headless backend adds. *)
Lemma convert_shape (h : Host) (self : DocumentConverter)
    (input_path output_folder : str) (hist : history) :
  exists success msg evs,
    convert_to_pdf h self input_path output_folder hist
    = (Returned (success, msg), evs)
    /\ exists bridge child,
         evs = (bridge ++ child)%list
         /\ (bridge = []
             \/ bridge = [EvImport "docx2pdf"]
             \/ bridge = [EvImport "docx2pdf";
                          EvDocx2pdfConvert input_path output_folder])
         /\ (child = []
             \/ exists executable,
                  libreoffice_path self = Some executable
                  /\ child = [ EvSubprocessRun
                                 (headless_command executable input_path output_folder)
                                 (spawn_configuration h) ]).
Proof.
  destruct (str_in (extension h input_path) (supported_extensions self)) eqn:Hs.
  2:{ rewrite (convert_rejected _ _ _ _ _ Hs).
      eexists; eexists; eexists. split; [reflexivity |].
      exists [], []. repeat split; left; reflexivity. }
  rewrite (convert_accepted _ _ _ _ _ Hs).
  assert (Hh : forall hist',
             exists r child,
               _convert_with_libreoffice h self input_path output_folder hist'
               = (Returned r, child)
               /\ (child = []
                   \/ exists executable,
                        libreoffice_path self = Some executable
                        /\ child = [ EvSubprocessRun
                                       (headless_command executable input_path
                                                         output_folder)
                                       (spawn_configuration h) ])).
  { intros hist'. destruct (libreoffice_path self) as [exe |] eqn:Hp.
    - rewrite (headless_run h self exe _ _ _ Hp).
      eexists; eexists. split; [reflexivity |]. right. exists exe.
      split; reflexivity.
    - unfold _convert_with_libreoffice, try_except, raise. rewrite Hp. cbn.
      eexists; eexists. split; [reflexivity |]. left. reflexivity. }
  destruct (select _ _ _).
  - destruct (word_call_cases h input_path output_folder hist)
      as [(e & _ & E) | [(e & _ & _ & E) | (_ & _ & E)]].
    + rewrite (word_branch_raised _ _ _ _ _ _ _ E).
      destruct (truthy (libreoffice_path self)).
      * destruct (Hh (hist ++ [EvImport "docx2pdf"])%list)
          as ([success msg] & child & -> & Hc).
        cbn [fst snd]. eexists; eexists; eexists. split; [reflexivity |].
        eexists; exists child. split; [reflexivity |].
        split; [right; left; reflexivity | exact Hc].
      * eexists; eexists; eexists. split; [reflexivity |].
        eexists; exists []. split; [symmetry; apply app_nil_r |].
        split; [right; left; reflexivity | left; reflexivity].
    + rewrite (word_branch_raised _ _ _ _ _ _ _ E).
      destruct (truthy (libreoffice_path self)).
      * destruct (Hh (hist ++ [EvImport "docx2pdf";
                               EvDocx2pdfConvert input_path output_folder])%list)
          as ([success msg] & child & -> & Hc).
        cbn [fst snd]. eexists; eexists; eexists. split; [reflexivity |].
        eexists; exists child. split; [reflexivity |].
        split; [right; right; reflexivity | exact Hc].
      * eexists; eexists; eexists. split; [reflexivity |].
        eexists; exists []. split; [symmetry; apply app_nil_r |].
        split; [right; right; reflexivity | left; reflexivity].
    + rewrite (word_branch_returned _ _ _ _ _ _ E).
      eexists; eexists; eexists. split; [reflexivity |].
      eexists; exists []. split; [symmetry; apply app_nil_r |].
      split; [right; right; reflexivity | left; reflexivity].
  - destruct (Hh hist) as ([success msg] & child & -> & Hc).
    eexists; eexists; eexists. split; [reflexivity |].
    exists [], child. split; [reflexivity |].
    split; [left; reflexivity | exact Hc].
  - eexists; eexists; eexists. split; [reflexivity |].
    exists [], []. repeat split; left; reflexivity.
Qed.

(** X1: [convert_to_pdf] raises nothing, whatever the backends do, and
    it makes at most one call to the bridge and starts at most one
    child, the child after the bridge: there is no retry beyond the
    single fallback. *)
Theorem convert_calls_bounded (h : Host) (self : DocumentConverter)
    (input_path output_folder : str) (hist : history) :
  exists success msg evs,
    convert_to_pdf h self input_path output_folder hist
    = (Returned (success, msg), evs)
    /\ exists bridge child,
         evs = (bridge ++ child)%list
         /\ (bridge = []
             \/ bridge = [EvImport "docx2pdf"]
             \/ bridge = [EvImport "docx2pdf";
                          EvDocx2pdfConvert input_path output_folder])
         /\ (child = []
             \/ exists executable,
                  libreoffice_path self = Some executable
                  /\ child = [ EvSubprocessRun
                                 [ executable; "--headless"; "--convert-to"; "pdf";
                                   input_path; "--outdir"; output_folder ]
                                 (if platform_system h =? "Windows"
                                  then Some 1%Z else None) ]).
Proof.
  destruct (convert_shape h self input_path output_folder hist)
    as (success & msg & evs & E & bridge & child & Hevs & Hbridge & Hchild).
  exists success, msg, evs. split; [exact E |].
  exists bridge, child. split; [exact Hevs |]. split; [exact Hbridge |].
  destruct Hchild as [-> | (executable & Hpath & ->)].
  - left. reflexivity.
  - right. exists executable. split; [exact Hpath | reflexivity].
Qed.

(** X2: when the bridge is chosen and both the import and the call go
    through, the result is success with the message that names Word, and
    no child process is started even if LibreOffice is there. *)
Theorem word_success (h : Host) (self : DocumentConverter)
    (input_path output_folder : str) (hist : history) :
  let ext := lower (lower_nonascii h) (snd (splitext h input_path)) in
  str_in ext (supported_extensions self) = true ->
  has_word self = true ->
  ext = ".docx" \/ ext = ".doc" ->
  import_docx2pdf h hist = None ->
  docx2pdf_convert h (hist ++ [EvImport "docx2pdf"])%list input_path output_folder
    = None ->
  convert_to_pdf h self input_path output_folder hist
  = (Returned (true, "Convertido com Word: " ++ basename h input_path),
     [EvImport "docx2pdf"; EvDocx2pdfConvert input_path output_folder]).
Proof.
  intros ext Hs Hw Hext Hi Hc.
  fold (extension h input_path) in ext. subst ext.
  rewrite (convert_accepted _ _ _ _ _ Hs).
  assert (S : select (has_word self) (truthy (libreoffice_path self))
                (extension h input_path) = WordProcessor).
  { apply select_word. split; assumption. }
  rewrite S.
  destruct (word_call_cases h input_path output_folder hist)
    as [(e & Hi' & _) | [(e & _ & Hc' & _) | (_ & _ & E)]].
  - rewrite Hi in Hi'. discriminate Hi'.
  - rewrite Hc in Hc'. discriminate Hc'.
  - apply (word_branch_returned _ _ _ _ _ _ E).
Qed.

Lemma word_success_witness :
  convert_to_pdf Fakes.working_bridge Hosts.both "/docs/carta.docx" "/docs" []
  = (Returned (true, "Convertido com Word: carta.docx"),
     [EvImport "docx2pdf"; EvDocx2pdfConvert "/docs/carta.docx" "/docs"]).
Proof.
  exact (word_success Fakes.working_bridge Hosts.both "/docs/carta.docx" "/docs" []
           eq_refl eq_refl (or_introl eq_refl) eq_refl eq_refl).
Defined.

Lemma headless_success (h : Host) (self : DocumentConverter)
    (input_path output_folder : str) (hist : history) (msg : str)
    (child : list event) :
  _convert_with_libreoffice h self input_path output_folder hist
    = (Returned (true, msg), child) ->
  msg = "Convertido com LibreOffice: " ++ basename h input_path
  /\ exists executable out err,
       libreoffice_path self = Some executable
       /\ child = [ EvSubprocessRun
                      (headless_command executable input_path output_folder)
                      (spawn_configuration h) ]
       /\ popen h hist (headless_command executable input_path output_folder)
                (spawn_configuration h)
          = Exited 0 out err.
Proof.
  destruct (libreoffice_path self) as [exe |] eqn:Hp.
  - rewrite (headless_run h self exe _ _ _ Hp). unfold headless_result.
    destruct (popen h hist _ _) as [m | rc out err] eqn:P.
    + intros E. inversion E.
    + destruct (Z.eqb_spec rc 0) as [-> | _]; intros E; inversion E; subst.
      split; [reflexivity |]. exists exe, out, err.
      repeat split; first [reflexivity | exact P].
  - unfold _convert_with_libreoffice, try_except, raise. rewrite Hp. cbn.
    intros E. inversion E.
Qed.

(** X3: [convert_to_pdf] reports success only when a backend succeeded,
    and its message names that backend: either the bridge was imported
    and its call returned, or the last event is a child process that
    exited with status 0. *)
Theorem success_is_earned (h : Host) (self : DocumentConverter)
    (input_path output_folder : str) (hist : history) (msg : str)
    (evs : list event) :
  convert_to_pdf h self input_path output_folder hist
    = (Returned (true, msg), evs) ->
  (msg = "Convertido com Word: " ++ basename h input_path
   /\ has_word self = true
   /\ evs = [EvImport "docx2pdf"; EvDocx2pdfConvert input_path output_folder]
   /\ import_docx2pdf h hist = None
   /\ docx2pdf_convert h (hist ++ [EvImport "docx2pdf"])%list
                       input_path output_folder = None)
  \/ (msg = "Convertido com LibreOffice: " ++ basename h input_path
      /\ exists executable before out err,
           libreoffice_path self = Some executable
           /\ evs = (before
                     ++ [ EvSubprocessRun
                            [ executable; "--headless"; "--convert-to"; "pdf";
                              input_path; "--outdir"; output_folder ]
                            (if platform_system h =? "Windows"
                             then Some 1%Z else None) ])%list
           /\ popen h (hist ++ before)%list
                    [ executable; "--headless"; "--convert-to"; "pdf";
                      input_path; "--outdir"; output_folder ]
                    (if platform_system h =? "Windows" then Some 1%Z else None)
              = Exited 0 out err).
Proof.
  destruct (str_in (extension h input_path) (supported_extensions self)) eqn:Hs.
  2:{ rewrite (convert_rejected _ _ _ _ _ Hs). intros E. inversion E. }
  rewrite (convert_accepted _ _ _ _ _ Hs).
  assert (Hfall : forall before,
             (fst (_convert_with_libreoffice h self input_path output_folder
                     (hist ++ before)%list),
              (before ++ snd (_convert_with_libreoffice h self input_path
                                output_folder (hist ++ before)%list))%list)
             = (Returned (true, msg), evs) ->
             msg = "Convertido com LibreOffice: " ++ basename h input_path
             /\ exists executable before out err,
                  libreoffice_path self = Some executable
                  /\ evs = (before
                            ++ [ EvSubprocessRun
                                   (headless_command executable input_path output_folder)
                                   (spawn_configuration h) ])%list
                  /\ popen h (hist ++ before)%list
                           (headless_command executable input_path output_folder)
                           (spawn_configuration h)
                     = Exited 0 out err).
  { intros before E.
    destruct (_convert_with_libreoffice h self input_path output_folder
                (hist ++ before)%list) as [r child] eqn:R.
    cbn [fst snd] in E. inversion E; subst r evs; clear E.
    destruct (headless_success _ _ _ _ _ _ _ R) as (Hm & exe & out & err & Hp & Hc & Hx).
    split; [exact Hm |]. exists exe, before, out, err.
    rewrite Hc. repeat split; assumption. }
  destruct (select _ _ _) eqn:S.
  - apply select_word in S as [Hw _].
    destruct (word_call_cases h input_path output_folder hist)
      as [(e & _ & E) | [(e & _ & _ & E) | (Hi & Hc & E)]].
    + rewrite (word_branch_raised _ _ _ _ _ _ _ E).
      destruct (truthy (libreoffice_path self)).
      * intros R. right. exact (Hfall _ R).
      * intros R. inversion R.
    + rewrite (word_branch_raised _ _ _ _ _ _ _ E).
      destruct (truthy (libreoffice_path self)).
      * intros R. right. exact (Hfall _ R).
      * intros R. inversion R.
    + rewrite (word_branch_returned _ _ _ _ _ _ E).
      intros R. inversion R; subst. left. repeat split; assumption.
  - intros R. right.
    destruct (_convert_with_libreoffice h self input_path output_folder hist)
      as [r child] eqn:R'.
    inversion R; subst r child; clear R.
    destruct (headless_success _ _ _ _ _ _ _ R') as (Hm & exe & out & err & Hp & Hc & Hx).
    split; [exact Hm |]. exists exe, [], out, err.
    rewrite app_nil_r. repeat split; assumption.
  - intros R. inversion R.
Qed.

Lemma success_is_earned_witness :
  convert_to_pdf Hosts.linux Hosts.both "/docs/carta.docx" "/docs" []
  = (Returned (true, "Convertido com LibreOffice: carta.docx"),
     [ EvImport "docx2pdf";
       EvSubprocessRun [ "soffice"; "--headless"; "--convert-to"; "pdf";
                         "/docs/carta.docx"; "--outdir"; "/docs" ] None ])
  /\ popen Hosts.linux [EvImport "docx2pdf"]
           [ "soffice"; "--headless"; "--convert-to"; "pdf";
             "/docs/carta.docx"; "--outdir"; "/docs" ] None
     = Exited 0 [] [].
Proof.
  split; [reflexivity |].
  destruct (success_is_earned Hosts.linux Hosts.both "/docs/carta.docx" "/docs" []
              "Convertido com LibreOffice: carta.docx"
              [ EvImport "docx2pdf";
                EvSubprocessRun [ "soffice"; "--headless"; "--convert-to"; "pdf";
                                  "/docs/carta.docx"; "--outdir"; "/docs" ] None ]
              eq_refl) as [_ | _]; reflexivity.
Defined.

(** * Further properties of the batch worker *)

(** The run of the worker, with the count of successes. *)
Lemma run_conversion_run (h : Host) (self : ConverterApp) (hist : history) :
  let N := List.length (selected_files self) in
  let opening := [ EvLog "------------------------------";
                   EvLog "Iniciando conversão..." ] in
  exists results evs,
    converted_in_order h (converter self) N 0 (hist ++ opening)%list
                       (selected_files self) results evs
    /\ List.length results = N
    /\ let summary := "Concluído! " ++ str_of_nat (successes results) ++ "/"
                      ++ str_of_nat N ++ " arquivos convertidos." in
       run_conversion h self hist
       = (Returned tt,
          (opening ++ evs
           ++ [ EvLog "------------------------------"; EvLog summary;
                EvAfter 0 "reset_ui" ])%list).
Proof.
  intros N opening.
  destruct (for_file_in_run h self N (selected_files self) 0 0 (hist ++ opening)%list)
    as (results & evs & Hc & Hl & Hr).
  exists results, evs. split; [exact Hc |]. split; [exact Hl |].
  intros summary. unfold run_conversion. fold N.
  change (str_mul "-" 30) with "------------------------------".
  change (opening ++ evs
          ++ [ EvLog "------------------------------"; EvLog summary;
               EvAfter 0 "reset_ui" ])%list
    with ([EvLog "------------------------------"]
          ++ [EvLog "Iniciando conversão..."]
          ++ evs
          ++ [EvLog "------------------------------"]
          ++ [EvLog summary] ++ [EvAfter 0 "reset_ui"])%list.
  eapply bind_run; [reflexivity |].
  eapply bind_run; [reflexivity |].
  eapply bind_run; [rewrite <- app_assoc; exact Hr |].
  eapply bind_run; [reflexivity |].
  cbn [plus]. fold summary.
  eapply bind_run; reflexivity.
Qed.

(** A request touches no widget. *)
Lemma convert_touches_no_widget (h : Host) (self : DocumentConverter)
    (input_path output_folder : str) (hist : history) :
  progress_of (emitted (convert_to_pdf h self input_path output_folder) hist) = []
  /\ forallb is_widget_event
       (emitted (convert_to_pdf h self input_path output_folder) hist)
     = match emitted (convert_to_pdf h self input_path output_folder) hist with
       | [] => true
       | _ => false
       end.
Proof.
  unfold emitted.
  destruct (convert_shape h self input_path output_folder hist)
    as (success & msg & evs & -> & bridge & child & -> & Hb & Hc).
  cbn [snd].
  destruct Hb as [-> | [-> | ->]];
    destruct Hc as [-> | (exe & _ & ->)]; split; reflexivity.
Qed.

Lemma progress_of_app (xs ys : list event) :
  progress_of (xs ++ ys) = (progress_of xs ++ progress_of ys)%list.
Proof. apply flat_map_app. Qed.

Lemma converted_progress (h : Host) (self : DocumentConverter) (total : nat)
    (i : nat) (hist : history) (files : list str) (results : list (bool * str))
    (evs : list event) :
  converted_in_order h self total i hist files results evs ->
  progress_of evs = map (fun k => (k, total)) (seq (S i) (List.length files)).
Proof.
  induction 1 as [| i hist file_path files success msg evs results evs' E _ IH].
  - reflexivity.
  - pose proof (proj1 (convert_touches_no_widget h self file_path
                         (dirname h file_path) hist)) as P.
    unfold emitted in P. rewrite E in P. cbn [snd] in P.
    rewrite !progress_of_app, P, IH. reflexivity.
Qed.

(** X4: the worker moves the progress bar once per file, to 1/N, 2/N
    and so on up to N/N, whatever the conversions give. *)
Theorem progress_reaches_the_end (h : Host) (self : ConverterApp) (hist : history) :
  let N := List.length (selected_files self) in
  progress_of (emitted (run_conversion h self) hist)
  = map (fun k => (k, N)) (seq 1 N).
Proof.
  intros N.
  destruct (run_conversion_run h self hist) as (results & evs & Hc & _ & E).
  unfold emitted. cbv zeta in E. fold N in E. rewrite E. cbn [snd].
  rewrite !progress_of_app. cbn [progress_of flat_map app].
  rewrite app_nil_r.
  apply (converted_progress _ _ _ _ _ _ _ _ Hc).
Qed.

Lemma convert_without_capability (h : Host) (self : DocumentConverter)
    (input_path output_folder : str) (hist : history) :
  has_word self = false ->
  truthy (libreoffice_path self) = false ->
  exists msg,
    convert_to_pdf h self input_path output_folder hist = (Returned (false, msg), []).
Proof.
  intros Hw Hl.
  destruct (str_in (extension h input_path) (supported_extensions self)) eqn:Hs.
  - rewrite (convert_accepted _ _ _ _ _ Hs). unfold select. rewrite Hw, Hl. cbn.
    eexists; reflexivity.
  - rewrite (convert_rejected _ _ _ _ _ Hs). eexists; reflexivity.
Qed.

Lemma converted_without_capability (h : Host) (self : DocumentConverter)
    (total : nat) (i : nat) (hist : history) (files : list str)
    (results : list (bool * str)) (evs : list event) :
  has_word self = false ->
  truthy (libreoffice_path self) = false ->
  converted_in_order h self total i hist files results evs ->
  successes results = 0 /\ forallb is_widget_event evs = true.
Proof.
  intros Hw Hl.
  induction 1 as [| i hist file_path files success msg evs results evs' E _ IH].
  - split; reflexivity.
  - destruct (convert_without_capability h self file_path (dirname h file_path)
                hist Hw Hl) as [msg' E'].
    rewrite E' in E. inversion E; subst success msg evs; clear E.
    destruct IH as [IH1 IH2]. split.
    + unfold successes in *. cbn. exact IH1.
    + cbn. exact IH2.
Qed.

(** X5: with neither capability the worker calls no backend at all:
    every event of the batch is a call into the widgets, and the summary
    reports 0 of N converted. *)
Theorem batch_without_converter (h : Host) (self : ConverterApp) (hist : history) :
  has_word (converter self) = false ->
  truthy (libreoffice_path (converter self)) = false ->
  let N := List.length (selected_files self) in
  forallb is_widget_event (emitted (run_conversion h self) hist) = true
  /\ In (EvLog ("Concluído! 0/" ++ str_of_nat N ++ " arquivos convertidos."))
        (emitted (run_conversion h self) hist).
Proof.
  intros Hw Hl N.
  destruct (run_conversion_run h self hist) as (results & evs & Hc & _ & E).
  destruct (converted_without_capability _ _ _ _ _ _ _ _ Hw Hl Hc) as [H0 Hev].
  unfold emitted. cbv zeta in E. fold N in E. rewrite E, H0. cbn [snd].
  split.
  - rewrite !forallb_app, Hev. reflexivity.
  - apply in_or_app. right. apply in_or_app. right.
    right. left. reflexivity.
Qed.

Lemma batch_without_converter_witness :
  In (EvLog "Concluído! 0/2 arquivos convertidos.")
     (emitted (run_conversion Hosts.linux
                 {| converter := Hosts.neither;
                    selected_files := ["/a/x.doc"; "/a/y.odt"] |}) []).
Proof.
  exact (proj2 (batch_without_converter Hosts.linux
                  {| converter := Hosts.neither;
                     selected_files := ["/a/x.doc"; "/a/y.odt"] |} []
                  eq_refl eq_refl)).
Defined.

(** * Further properties of the probes *)

Lemma word_probe_true (h : Machine) (hist : history) (evs : list event) :
  _check_word_installed h hist = (Returned true, evs) ->
  platform_system h = "Windows" /\ import_docx2pdf h hist = None.
Proof.
  unfold _check_word_installed, try_except, bind, import_, call.
  destruct (String.eqb_spec (platform_system h) "Windows") as [W | W]; cbn [negb].
  - destruct (import_docx2pdf h hist) as [[msg | rc cmd out err | msg] |]; cbn;
      intros E; inversion E. split; [exact W | reflexivity].
  - intros E. inversion E.
Qed.

(** The loop over the install paths ends at the first existing one, or
    runs out and hands over to the search path. *)
Lemma for_path_in_cases (h : Machine) (paths : list str) :
  forall (hist : history) (r : option str) (evs : list event),
    for_path_in h paths
      (available <- _is_command_available h "soffice" ;;
       ret (if available then Some "soffice" else None)) hist
    = (Returned r, evs) ->
    (exists before p,
        r = Some p /\ In p paths
        /\ evs = (before ++ [EvPathExists p])%list
        /\ os_path_exists h (hist ++ before)%list p = true)
    \/ (exists before,
          evs = (before ++ [EvWhich "soffice"])%list
          /\ r = bare_name h (hist ++ before)%list
          /\ before = map EvPathExists paths).
Proof.
  induction paths as [| path paths IH]; intros hist r evs E.
  - cbn [for_path_in] in E. rewrite after_loop_run in E.
    inversion E; subst. right. exists []. rewrite app_nil_r.
    repeat split; reflexivity.
  - cbn [for_path_in] in E. unfold bind at 1 in E.
    unfold exists_ at 1 in E. unfold call at 1 in E.
    destruct (os_path_exists h hist path) eqn:X.
    + cbn in E. inversion E; subst. left. exists [], path.
      rewrite app_nil_r. repeat split; [left; reflexivity | exact X].
    + destruct (for_path_in h paths _ (hist ++ [EvPathExists path])%list)
        as [r' evs'] eqn:F.
      inversion E; subst r' evs; clear E.
      destruct (IH _ _ _ F)
        as [(before & p & -> & Hin & -> & Hx) | (before & -> & -> & ->)].
      * left. exists (EvPathExists path :: before), p.
        rewrite <- app_assoc in Hx.
        repeat split; [right; exact Hin | exact Hx].
      * right. exists (EvPathExists path :: map EvPathExists paths).
        rewrite <- app_assoc. repeat split; reflexivity.
Qed.

Lemma find_libreoffice_cases (h : Machine) (hist : history) (r : option str)
    (evs : list event) :
  _find_libreoffice h hist = (Returned r, evs) ->
  (r = Some "soffice" /\ evs = []
   /\ platform_system h <> "Windows" /\ platform_system h <> "Darwin")
  \/ (exists before p,
        r = Some p /\ p <> "soffice"
        /\ evs = (before ++ [EvPathExists p])%list
        /\ os_path_exists h (hist ++ before)%list p = true)
  \/ (exists before,
        evs = (before ++ [EvWhich "soffice"])%list
        /\ r = bare_name h (hist ++ before)%list
        /\ (platform_system h = "Windows" \/ platform_system h = "Darwin")).
Proof.
  unfold _find_libreoffice. cbv zeta.
  destruct (String.eqb_spec (platform_system h) "Windows") as [W | W].
  - intros E. apply for_path_in_cases in E
      as [(before & p & -> & Hin & -> & Hx) | (before & -> & -> & _)].
    + right; left. exists before, p. repeat split; try assumption.
      cbn in Hin. destruct Hin as [<- | [<- | []]]; discriminate.
    + right; right. exists before. repeat split. left. exact W.
  - destruct (String.eqb_spec (platform_system h) "Darwin") as [D | D].
    + intros E. apply for_path_in_cases in E
        as [(before & p & -> & Hin & -> & Hx) | (before & -> & -> & _)].
      * right; left. exists before, p. repeat split; try assumption.
        cbn in Hin. destruct Hin as [<- | []]; discriminate.
      * right; right. exists before. repeat split. right. exact D.
    + intros E. inversion E; subst. left. repeat split; assumption.
Qed.

(** X6: what the constructor leaves in the snapshot.  The list of
    supported extensions is the fixed one; Word is reported only on
    Windows after a successful import; a path other than the bare name
    was the last one checked and existed at that moment; the bare name
    on Windows or Mac, and [None] anywhere, come from the search path,
    consulted last; and [None] is never the answer elsewhere. *)
Theorem snapshot_is_grounded (h : Machine) (hist : history)
    (self : DocumentConverter) (evs : list event) :
  __init__ h hist = (Returned self, evs) ->
  supported_extensions self = [".docx"; ".doc"; ".odt"; ".rtf"]
  /\ (has_word self = true ->
      platform_system h = "Windows" /\ import_docx2pdf h hist = None)
  /\ (forall p,
        libreoffice_path self = Some p -> p <> "soffice" ->
        exists before,
          evs = (before ++ [EvPathExists p])%list
          /\ os_path_exists h (hist ++ before)%list p = true)
  /\ (libreoffice_path self = None ->
      (platform_system h = "Windows" \/ platform_system h = "Darwin")
      /\ exists before,
           evs = (before ++ [EvWhich "soffice"])%list
           /\ shutil_which h (hist ++ before)%list "soffice" = None).
Proof.
  unfold __init__. intros E. unfold bind at 1 in E.
  destruct (_check_word_installed h hist) as [[b | e] evs1] eqn:Hw;
    [| inversion E].
  unfold bind at 1 in E.
  destruct (_find_libreoffice h (hist ++ evs1)%list) as [[r | e] evs2] eqn:Hf;
    [| cbn in E; inversion E].
  cbn in E. rewrite app_nil_r in E. inversion E; subst self evs; clear E.
  cbn [supported_extensions has_word libreoffice_path].
  split; [reflexivity |]. split; [| split].
  - intros ->. exact (word_probe_true h hist evs1 Hw).
  - intros p -> Hp.
    destruct (find_libreoffice_cases _ _ _ _ Hf)
      as [(R & _) | [(before & p' & R & _ & -> & Hx) | (before & -> & R & _)]].
    + inversion R. contradiction.
    + inversion R; subst p'. exists (evs1 ++ before)%list.
      rewrite !app_assoc in *. split; [reflexivity | exact Hx].
    + unfold bare_name in R.
      destruct (shutil_which h _ "soffice"); inversion R. contradiction.
  - intros ->.
    destruct (find_libreoffice_cases _ _ _ _ Hf)
      as [(R & _) | [(before & p' & R & _) | (before & -> & R & Hsys)]].
    + discriminate R.
    + discriminate R.
    + split; [exact Hsys |]. exists (evs1 ++ before)%list.
      rewrite !app_assoc in *. split; [reflexivity |].
      unfold bare_name in R.
      destruct (shutil_which h _ "soffice"); [discriminate R | reflexivity].
Qed.

Lemma snapshot_is_grounded_witness :
  __init__ Hosts.windows []
  = (Returned {| has_word := true;
                 libreoffice_path :=
                   Some "C:\Program Files (x86)\LibreOffice\program\soffice.exe";
                 supported_extensions := [".docx"; ".doc"; ".odt"; ".rtf"] |},
     [ EvImport "docx2pdf";
       EvPathExists "C:\Program Files\LibreOffice\program\soffice.exe";
       EvPathExists "C:\Program Files (x86)\LibreOffice\program\soffice.exe" ])
  /\ platform_system Hosts.windows = "Windows".
Proof.
  split; [reflexivity |].
  exact (proj1 (proj1 (proj2
    (snapshot_is_grounded Hosts.windows [] _ _ eq_refl)) eq_refl)).
Defined.

(** * Properties of the window *)

(** X7: the status of the two capabilities is logged as one message
    of two lines, and the warning box is shown exactly when the snapshot
    has neither Word nor a LibreOffice path; otherwise the window is
    left as it was. *)
Theorem warning_only_without_converter (w : Gui.Window) (hist : history) :
  let self := converter (Gui.app w) in
  let warning :=
    Gui.ShowWarning "Aviso"
      ("Nenhum conversor encontrado!" ++ Gui.nl
       ++ "Instale o MS Word ou LibreOffice.") in
  let status :=
    (if has_word self
     then "MS Word detectado (docx2pdf)." else "MS Word NÃO detectado.")
    ++ Gui.nl
    ++ (if truthy (libreoffice_path self)
        then "LibreOffice detectado."
        else "LibreOffice NÃO detectado. Instale para suporte a ODT/RTF.") in
  exists w',
    Gui._check_dependencies w hist = (Returned w', [EvLog status])
    /\ (Gui.dialogs w' = (Gui.dialogs w ++ [warning])%list
        <-> has_word self = false /\ truthy (libreoffice_path self) = false)
    /\ (has_word self = true \/ truthy (libreoffice_path self) = true -> w' = w).
Proof.
  intros self warning status. subst self status.
  unfold Gui._check_dependencies, bind, log_message, call, ret.
  assert (Hne : forall (l : list Gui.dialog) d, l <> (l ++ [d])%list).
  { intros l d E. apply (f_equal (@List.length _)) in E.
    rewrite length_app in E. cbn in E. lia. }
  destruct (has_word (converter (Gui.app w)));
    destruct (truthy (libreoffice_path (converter (Gui.app w)))); cbn;
    eexists; (split; [reflexivity |]); split.
  1,3,5: split; [intros E; exfalso; exact (Hne _ _ E) | intros [A B]; discriminate].
  1,2,3: intros _; reflexivity.
  - split; [intros _; split; reflexivity | intros _; reflexivity].
  - intros [E | E]; discriminate E.
Qed.

(** X8: on a host that is neither Windows nor Mac the window starts
    with the status "Word not detected, LibreOffice detected" and shows
    no warning, whether LibreOffice is installed or not: nothing is
    looked up. *)
Theorem unix_startup_never_warns (h : Machine) (hist : history) :
  platform_system h <> "Windows" ->
  platform_system h <> "Darwin" ->
  Gui.__init__ h hist
  = (Returned
       (Gui._setup_ui
          {| has_word := false; libreoffice_path := Some "soffice";
             supported_extensions := [".docx"; ".doc"; ".odt"; ".rtf"] |}),
     [ EvProgress 0 1;
       EvLog ("MS Word NÃO detectado." ++ Gui.nl ++ "LibreOffice detectado.") ]).
Proof.
  intros W D. unfold Gui.__init__. unfold bind at 1.
  rewrite (unix_init h hist W D). reflexivity.
Qed.

Lemma unix_startup_never_warns_witness :
  Gui.dialogs
    (Gui._setup_ui
       {| has_word := false; libreoffice_path := Some "soffice";
          supported_extensions := [".docx"; ".doc"; ".odt"; ".rtf"] |}) = []
  /\ fst (Gui.__init__ (Hosts.bare "Linux") [])
     = Returned
         (Gui._setup_ui
            {| has_word := false; libreoffice_path := Some "soffice";
               supported_extensions := [".docx"; ".doc"; ".odt"; ".rtf"] |}).
Proof.
  split; [reflexivity |].
  exact (f_equal fst
           (unix_startup_never_warns (Hosts.bare "Linux") []
              ltac:(discriminate) ltac:(discriminate))).
Defined.

Lemma for_file_in_files_filter (h : Host) (j : str -> str -> str)
    (self : DocumentConverter) (root : str) (files : list str) :
  forall found,
    Gui.for_file_in_files h j self root files found
    = (found ++ map (j root) (filter (is_compatible h self) files))%list.
Proof.
  induction files as [| file files IH]; intros found; cbn [Gui.for_file_in_files].
  - cbn. symmetry. apply app_nil_r.
  - rewrite IH. cbn [filter]. unfold is_compatible at 2.
    destruct (str_in _ _); cbn [map].
    + rewrite <- app_assoc. reflexivity.
    + reflexivity.
Qed.

Lemma for_root_in_walk_filter (h : Host) (j : str -> str -> str)
    (self : DocumentConverter) (walk : list (str * list str * list str)) :
  forall found,
    Gui.for_root_in_walk h j self walk found
    = (found
       ++ flat_map (fun entry =>
                      map (j (fst (fst entry)))
                          (filter (is_compatible h self) (snd entry))) walk)%list.
Proof.
  induction walk as [| [[root dirs] files] walk IH]; intros found;
    cbn [Gui.for_root_in_walk flat_map].
  - symmetry. apply app_nil_r.
  - rewrite IH, for_file_in_files_filter, <- app_assoc. reflexivity.
Qed.

(** X9: what picking a folder does.  The files found are the files of
    the walk whose lowered extension is supported, joined to their
    directory, in the order of the walk.  When there is at least one,
    they replace the selection and the convert button is enabled; when
    there is none, the button is disabled and the label says so, but the
    earlier selection stays in place and nothing is logged; when the
    dialog is cancelled nothing changes. *)
Theorem folder_selection (h : Host) (os_path_join : str -> str -> str)
    (folder : str) (walk : list (str * list str * list str))
    (w : Gui.Window) (hist : history) :
  let found :=
    flat_map (fun entry =>
                map (os_path_join (fst (fst entry)))
                    (filter (is_compatible h (converter (Gui.app w))) (snd entry)))
             walk in
  exists w' evs,
    Gui.select_folder h os_path_join folder walk w hist = (Returned w', evs)
    /\ (folder = "" -> w' = w /\ evs = [])
    /\ (folder <> "" -> found <> [] ->
        selected_files (Gui.app w') = found
        /\ Gui.btn_convert_state w' = "normal"
        /\ evs = [ EvLog ("Pasta selecionada. " ++ str_of_nat (List.length found)
                          ++ " arquivos encontrados.") ])
    /\ (folder <> "" -> found = [] ->
        selected_files (Gui.app w') = selected_files (Gui.app w)
        /\ Gui.btn_convert_state w' = "disabled"
        /\ Gui.lbl_selection w' = "Nenhum arquivo compatível encontrado na pasta."
        /\ evs = []).
Proof.
  intros found. unfold Gui.select_folder.
  rewrite (for_root_in_walk_filter h os_path_join (converter (Gui.app w)) walk []).
  cbn [app]. fold found.
  destruct (String.eqb_spec folder "") as [-> | Hf]; cbn [negb].
  - eexists; eexists. split; [reflexivity |].
    split; [intros _; split; reflexivity |].
    split; intros C; contradiction.
  - destruct found as [| f fs] eqn:F.
    + eexists; eexists. split; [reflexivity |].
      split; [intros C; contradiction |].
      split; [intros _ C; contradiction |].
      intros _ _. repeat split; reflexivity.
    + eexists; eexists. split; [reflexivity |].
      split; [intros C; contradiction |].
      split; [| intros _ C; discriminate C].
      intros _ _. repeat split; reflexivity.
Qed.

Lemma step_keeps_invariant (h : Host) (j : str -> str -> str)
    (w w' : Gui.Window) :
  window_invariant w -> Gui.step h j w w' -> window_invariant w'.
Proof.
  intros [Hc Hn] S.
  assert (Hidle : forall b : str, b = "normal" -> b <> "disabled")
    by (intros b -> ; discriminate).
  destruct S as [w files hist evs w' Hb S | w folder walk hist evs w' Hb S
                 | w hist evs w' Hb S | w hist evs w' Hb S].
  - (* a click on the file button *)
    assert (I : Gui.is_converting w = false).
    { destruct (Gui.is_converting w); [| reflexivity].
      destruct (Hc eq_refl) as (_ & F & _). rewrite F in Hb. discriminate Hb. }
    unfold Gui.select_files in S. destruct files as [| f fs].
    + inversion S; subst. split; assumption.
    + cbn in S. inversion S; subst; clear S. split; cbn.
      * rewrite I. discriminate.
      * intros _. discriminate.
  - (* a click on the folder button *)
    assert (I : Gui.is_converting w = false).
    { destruct (Gui.is_converting w); [| reflexivity].
      destruct (Hc eq_refl) as (_ & _ & F & _). rewrite F in Hb. discriminate Hb. }
    unfold Gui.select_folder in S.
    destruct (negb (folder =? "")).
    + destruct (Gui.for_root_in_walk h j (converter (Gui.app w)) walk [])
        as [| f fs]; cbn in S; inversion S; subst; clear S; split; cbn.
      * rewrite I. discriminate.
      * discriminate.
      * rewrite I. discriminate.
      * intros _. discriminate.
    + inversion S; subst. split; assumption.
  - (* a click on the convert button *)
    pose proof (Hn Hb) as Hsel.
    unfold Gui.start_conversion_thread in S.
    destruct (selected_files (Gui.app w)) as [| f fs] eqn:F; [contradiction |].
    cbn in S. inversion S; subst; clear S. split; cbn.
    + intros _. rewrite F. repeat split; discriminate.
    + discriminate.
  - (* the worker ends *)
    destruct (Hc Hb) as (_ & _ & _ & Hsel).
    cbn in S. inversion S; subst; clear S. split; cbn.
    + discriminate.
    + intros _. exact Hsel.
Qed.

Lemma reachable_invariant (h : Host) (j : str -> str -> str)
    (self : DocumentConverter) (w : Gui.Window) :
  Gui.reachable h j (Gui._setup_ui self) w -> window_invariant w.
Proof.
  induction 1 as [| w w' _ IH S].
  - split; cbn; discriminate.
  - exact (step_keeps_invariant h j w w' IH S).
Qed.

(** X10: in every state the window can reach from start-up, a running
    conversion has the three buttons disabled and a selection to work
    on, and the convert button is enabled only when files are selected,
    so that a click on it always starts a worker: the early return of
    [start_conversion_thread] is never taken from the button. *)
Theorem controls_guard_the_selection (h : Host) (os_path_join : str -> str -> str)
    (self : DocumentConverter) (w : Gui.Window) (hist : history) :
  Gui.reachable h os_path_join (Gui._setup_ui self) w ->
  (Gui.is_converting w = true ->
   Gui.btn_convert_state w = "disabled"
   /\ Gui.btn_file_state w = "disabled"
   /\ Gui.btn_folder_state w = "disabled"
   /\ selected_files (Gui.app w) <> [])
  /\ (Gui.btn_convert_state w = "normal" ->
      selected_files (Gui.app w) <> []
      /\ exists w',
           Gui.start_conversion_thread w hist = (Returned w', [EvProgress 0 1])
           /\ Gui.is_converting w' = true
           /\ Gui.threads w' = S (Gui.threads w)
           /\ selected_files (Gui.app w') = selected_files (Gui.app w)).
Proof.
  intros R. destruct (reachable_invariant h os_path_join self w R) as [Hc Hn].
  split; [exact Hc |].
  intros Hb. pose proof (Hn Hb) as Hsel. split; [exact Hsel |].
  unfold Gui.start_conversion_thread.
  destruct (selected_files (Gui.app w)) as [| f fs] eqn:F; [contradiction |].
  eexists. split; [reflexivity |]. cbn. rewrite F. repeat split; reflexivity.
Qed.

Lemma reachable_picked :
  Gui.reachable Hosts.linux posixpath_join (Gui._setup_ui Hosts.headless_only)
                Fakes.picked.
Proof.
  eapply Gui.Next; [apply Gui.Start |].
  eapply Gui.PressFile with (files := ["/docs/carta.docx"]) (hist := []);
    reflexivity.
Qed.

Lemma reachable_converting :
  Gui.reachable Hosts.linux posixpath_join (Gui._setup_ui Hosts.headless_only)
                Fakes.converting.
Proof.
  eapply Gui.Next; [apply reachable_picked |].
  eapply Gui.PressConvert with (hist := []) (evs := [EvProgress 0 1]);
    reflexivity.
Qed.

Lemma controls_guard_the_selection_witness :
  Gui.btn_convert_state Fakes.picked = "normal"
  /\ selected_files (Gui.app Fakes.picked) <> [].
Proof.
  split; [reflexivity |].
  exact (proj1 (proj2 (controls_guard_the_selection Hosts.linux posixpath_join
                         Hosts.headless_only Fakes.picked [] reachable_picked)
                 eq_refl)).
Defined.

(** X11: while a conversion is running nothing can happen to the window
    but the end of the worker: the selection and the number of threads
    stay as they are, so the worker's list is not touched and no second
    worker starts, and the step that follows re-enables the three
    buttons and shows the closing box. *)
Theorem frozen_while_converting (h : Host) (os_path_join : str -> str -> str)
    (self : DocumentConverter) (w w' : Gui.Window) :
  Gui.reachable h os_path_join (Gui._setup_ui self) w ->
  Gui.is_converting w = true ->
  Gui.step h os_path_join w w' ->
  selected_files (Gui.app w') = selected_files (Gui.app w)
  /\ Gui.threads w' = Gui.threads w
  /\ Gui.is_converting w' = false
  /\ Gui.btn_convert_state w' = "normal"
  /\ Gui.btn_file_state w' = "normal"
  /\ Gui.btn_folder_state w' = "normal"
  /\ Gui.dialogs w'
     = (Gui.dialogs w
        ++ [Gui.ShowInfo "Sucesso" "Processo de conversão finalizado!"])%list.
Proof.
  intros R I S.
  destruct (reachable_invariant h os_path_join self w R) as [Hc _].
  destruct (Hc I) as (B1 & B2 & B3 & _).
  destruct S as [w files hist evs w' Hb S | w folder walk hist evs w' Hb S
                 | w hist evs w' Hb S | w hist evs w' Hb S].
  - rewrite B2 in Hb. discriminate Hb.
  - rewrite B3 in Hb. discriminate Hb.
  - rewrite B1 in Hb. discriminate Hb.
  - cbn in S. inversion S; subst; clear S. cbn. repeat split; reflexivity.
Qed.

Lemma frozen_while_converting_witness :
  Gui.is_converting Fakes.converting = true
  /\ Gui.step Hosts.linux posixpath_join Fakes.converting Fakes.finished
  /\ selected_files (Gui.app Fakes.finished) = ["/docs/carta.docx"]
  /\ Gui.threads Fakes.finished = 1.
Proof.
  assert (S : Gui.step Hosts.linux posixpath_join Fakes.converting Fakes.finished).
  { eapply Gui.WorkerEnds with (hist := []) (evs := []); reflexivity. }
  split; [reflexivity |]. split; [exact S |].
  pose proof (frozen_while_converting Hosts.linux posixpath_join
                Hosts.headless_only Fakes.converting Fakes.finished
                reachable_converting eq_refl S) as (Hsel & Hthreads & _).
  split; [exact Hsel | exact Hthreads].
Defined.

(** * [posixpath] under concatenation *)

Lemma rfind_at_range (c : ascii) (p : str) :
  forall i : Z,
    posixpath.rfind_at c p i = (-1)%Z
    \/ (i <= posixpath.rfind_at c p i < i + Z.of_nat (String.length p))%Z.
Proof.
  induction p as [| d r IH]; intros i; cbn [posixpath.rfind_at String.length].
  - left. reflexivity.
  - destruct (IH (i + 1)%Z) as [E | R].
    + rewrite E. cbn. destruct (Ascii.eqb d c); [right; lia | left; reflexivity].
    + destruct (Z.leb_spec 0 (posixpath.rfind_at c r (i + 1))).
      * right. lia.
      * destruct (Ascii.eqb d c); [right; lia | left; reflexivity].
Qed.

Lemma rfind_at_shift (c : ascii) (p : str) :
  forall i : Z,
    (0 <= i)%Z ->
    posixpath.rfind_at c p i
    = if (0 <=? posixpath.rfind_at c p 0)%Z
      then (i + posixpath.rfind_at c p 0)%Z else (-1)%Z.
Proof.
  induction p as [| d r IH]; intros i Hi; cbn [posixpath.rfind_at].
  - reflexivity.
  - rewrite (IH (i + 1)%Z) by lia. rewrite (IH (0 + 1)%Z) by lia.
    destruct (rfind_at_range c r 0) as [E | R].
    + rewrite E. cbn. destruct (Ascii.eqb d c); cbn; [f_equal; lia | reflexivity].
    + clear IH. revert R. generalize (posixpath.rfind_at c r 0). intros k R.
      assert (A1 : (0 <=? k)%Z = true) by (apply Z.leb_le; lia).
      assert (A2 : (0 <=? i + 1 + k)%Z = true) by (apply Z.leb_le; lia).
      assert (A3 : (0 <=? 0 + 1 + k)%Z = true) by (apply Z.leb_le; lia).
      rewrite A1, A2, A3, A3. lia.
Qed.

Lemma rfind_at_app (c : ascii) (d f : str) :
  forall i : Z,
    (0 <= i)%Z ->
    posixpath.rfind_at c (d ++ f) i
    = if (0 <=? posixpath.rfind_at c f (i + Z.of_nat (String.length d)))%Z
      then posixpath.rfind_at c f (i + Z.of_nat (String.length d))
      else posixpath.rfind_at c d i.
Proof.
  induction d as [| a d IH]; intros i Hi.
  - cbn [append String.length]. rewrite Z.add_0_r.
    destruct (Z.leb_spec 0 (posixpath.rfind_at c f i)); [reflexivity |].
    destruct (rfind_at_range c f i) as [E | R]; [exact E | lia].
  - cbn [append posixpath.rfind_at String.length]. rewrite IH by lia.
    replace (i + 1 + Z.of_nat (String.length d))%Z
      with (i + Z.of_nat (S (String.length d)))%Z by lia.
    destruct (Z.leb_spec 0 (posixpath.rfind_at c f (i + Z.of_nat (S (String.length d)))))
      as [P | N]; [| reflexivity].
    apply Z.leb_le in P. rewrite P. reflexivity.
Qed.

Lemma rfind_no_slash (f : str) :
  no_slash f = true -> forall i, posixpath.rfind_at "/" f i = (-1)%Z.
Proof.
  induction f as [| c r IH]; cbn [no_slash posixpath.rfind_at]; intros H i.
  - reflexivity.
  - apply andb_prop in H as [Hc Hr]. rewrite (IH Hr). cbn.
    apply negb_true_iff in Hc. rewrite Hc. reflexivity.
Qed.

Lemma substring_app_skip (d f : str) (a m : nat) :
  substring (String.length d + a) m (d ++ f) = substring a m f.
Proof.
  induction d as [| c d IH]; [reflexivity |].
  cbn [String.length append plus substring]. exact IH.
Qed.

Lemma substring_app_keep (d f : str) (m : nat) :
  substring 0 (String.length d + m) (d ++ f) = d ++ substring 0 m f.
Proof.
  induction d as [| c d IH]; [reflexivity |].
  cbn [String.length append plus substring]. rewrite IH. reflexivity.
Qed.

Lemma length_app_str (d f : str) :
  String.length (d ++ f) = String.length d + String.length f.
Proof.
  induction d as [| c d IH]; [reflexivity |].
  cbn [String.length append plus]. rewrite IH. reflexivity.
Qed.

Lemma has_stem_app (d f : str) (e : ascii) (n : nat) :
  forall a,
    posixpath.has_stem (d ++ f) e (String.length d + a) n
    = posixpath.has_stem f e a n.
Proof.
  induction n as [| n IH]; intros a; cbn [posixpath.has_stem]; [reflexivity |].
  rewrite substring_app_skip.
  replace (S (String.length d + a)) with (String.length d + S a) by lia.
  rewrite IH. reflexivity.
Qed.

Lemma rfind_directory_prefix (d : str) :
  directory_prefix d ->
  posixpath.rfind d "/" = (Z.of_nat (String.length d) - 1)%Z
  /\ (posixpath.rfind d "." < Z.of_nat (String.length d) - 1
      \/ posixpath.rfind d "." = (-1)%Z)%Z.
Proof.
  unfold posixpath.rfind. intros [-> | [d0 ->]].
  - split; [reflexivity | right; reflexivity].
  - rewrite !rfind_at_app by lia. rewrite length_app_str. cbn [posixpath.rfind_at String.length].
    cbn. split.
    + destruct (Z.leb_spec 0 (Z.of_nat (String.length d0))); lia.
    + destruct (rfind_at_range "." d0 0) as [E | R]; [right; exact E | left; lia].
Qed.

(** Putting a directory in front of a name leaves its extension alone. *)
Lemma splitext_directory_prefix (d f : str) :
  directory_prefix d -> no_slash f = true ->
  posixpath.splitext (d ++ f)
  = (d ++ fst (posixpath.splitext f), snd (posixpath.splitext f)).
Proof.
  intros Hd Hf.
  destruct (rfind_directory_prefix d Hd) as [Hsep Hdot].
  unfold posixpath.splitext, posixpath._splitext, posixpath.rfind in *.
  rewrite !rfind_at_app by lia. rewrite !Z.add_0_l.
  rewrite !(rfind_no_slash f Hf). cbn [Z.leb Z.compare].
  change ((0 <=? -1)%Z) with false. cbv iota. rewrite Hsep.
  rewrite (rfind_at_shift "." f (Z.of_nat (String.length d))) by lia.
  set (k := posixpath.rfind_at "." f 0) in *.
  destruct (rfind_at_range "." f 0) as [E | R]; fold k in E || fold k in R.
  - (* no dot in the name *)
    rewrite E. cbn [Z.leb Z.compare]. change ((0 <=? -1)%Z) with false. cbv iota.
    change ((-1 <? -1)%Z) with false. cbn [andb].
    destruct (Z.ltb_spec (Z.of_nat (String.length d) - 1) (posixpath.rfind_at "." d 0));
      [lia |].
    cbn [andb fst snd]. unfold posixpath.upto.
    replace (substring 0 0 (d ++ f)) with "" by (destruct (d ++ f); reflexivity).
    replace (substring 0 0 f) with "" by (destruct f; reflexivity).
    reflexivity.
  - (* the last dot of the name *)
    destruct (Z.leb_spec 0 k); [| lia].
    destruct (Z.leb_spec 0 (Z.of_nat (String.length d) + k)); [| lia].
    destruct (Z.ltb_spec (Z.of_nat (String.length d) - 1)
                         (Z.of_nat (String.length d) + k)); [| lia].
    destruct (Z.ltb_spec (-1) k); [| lia].
    cbn [andb].
    replace (Z.to_nat (Z.of_nat (String.length d) - 1 + 1)) with (String.length d + 0)
      by lia.
    replace (Z.to_nat (Z.of_nat (String.length d) + k)) with (String.length d + Z.to_nat k)
      by lia.
    replace (String.length d + Z.to_nat k - (String.length d + 0)) with (Z.to_nat k)
      by lia.
    rewrite has_stem_app.
    change (Z.to_nat (-1 + 1)) with 0. rewrite Nat.sub_0_r.
    destruct (posixpath.has_stem f "." 0 (Z.to_nat k)); cbn [fst snd].
    + unfold posixpath.upto, posixpath.from.
      rewrite substring_app_keep, substring_app_skip, length_app_str.
      replace (String.length d + String.length f - (String.length d + Z.to_nat k))
        with (String.length f - Z.to_nat k) by lia.
      reflexivity.
    + unfold posixpath.upto.
      replace (substring 0 0 (d ++ f)) with "" by (destruct (d ++ f); reflexivity).
      replace (substring 0 0 f) with "" by (destruct f; reflexivity).
      reflexivity.
Qed.

Lemma append_assoc_str (a b c : str) : (a ++ b) ++ c = a ++ b ++ c.
Proof.
  induction a as [| x a IH]; [reflexivity |].
  cbn [append]. rewrite IH. reflexivity.
Qed.

Lemma ends_with_slash (a : str) :
  a <> "" -> substring (String.length a - 1) 1 a = "/" ->
  exists d0, a = d0 ++ "/".
Proof.
  induction a as [| c r IH]; intros Hne H; [contradiction |].
  destruct r as [| c' r'].
  - cbn in H. inversion H. exists "". reflexivity.
  - replace (String.length (String c (String c' r')) - 1)
      with (S (String.length r')) in H by (cbn [String.length]; lia).
    cbn [substring] in H.
    destruct IH as [d0 E].
    + discriminate.
    + replace (String.length (String c' r') - 1) with (String.length r')
        by (cbn [String.length]; lia).
      exact H.
    + exists (String c d0). cbn [append]. rewrite <- E. reflexivity.
Qed.

(** [posixpath.join] puts a directory prefix in front of a plain name. *)
Lemma join_directory_prefix (root file : str) :
  no_slash file = true ->
  exists d, directory_prefix d /\ posixpath_join root file = d ++ file.
Proof.
  intros Hf. unfold posixpath_join.
  assert (P : prefix "/" file = false).
  { destruct file as [| c r]; [reflexivity |].
    cbn [no_slash] in Hf. apply andb_prop in Hf as [Hc _].
    apply negb_true_iff in Hc. cbn [prefix].
    destruct (ascii_dec "/" c) as [<- | N]; [| reflexivity].
    rewrite Ascii.eqb_refl in Hc. discriminate Hc. }
  rewrite P.
  destruct (String.eqb_spec root "") as [-> | Hne]; cbn [orb].
  - exists "". split; [left; reflexivity | reflexivity].
  - destruct (String.eqb_spec (substring (String.length root - 1) 1 root) "/")
      as [L | L].
    + destruct (ends_with_slash root Hne L) as [d0 ->].
      exists (d0 ++ "/"). split; [right; exists d0; reflexivity | reflexivity].
    + exists (root ++ "/"). split; [right; exists root; reflexivity |].
      symmetry. apply append_assoc_str.
Qed.

Lemma accepted_not_rejected (h : Host) (self : DocumentConverter)
    (input_path output_folder : str) (hist : history) (ext : str) :
  str_in (extension h input_path) (supported_extensions self) = true ->
  convert_to_pdf h self input_path output_folder hist
  <> (Returned (false, "Extensão não suportada: " ++ ext), []).
Proof.
  intros Hs C.
  pose proof (accepted_follows_policy h self input_path output_folder hist Hs) as P.
  unfold follows_policy, emitted in P. rewrite C in P.
  destruct (select _ _ _).
  - destruct P as [evs P]. discriminate P.
  - destruct P as (_ & (cmd & si & []) & _).
  - discriminate P.
Qed.

(** X12: on a host whose [os.path] is [posixpath], every file the
    folder scan puts in the selection is accepted by [convert_to_pdf]:
    joining the directory to the name leaves the extension as it was,
    so the test that kept the file is the test the conversion makes,
    and the file is never answered with "unsupported extension". *)
Theorem folder_files_are_accepted (h : Host) (self : DocumentConverter)
    (walk : list (str * list str * list str)) (file_path : str) :
  splitext h = posixpath.splitext ->
  Forall (fun entry => Forall (fun name => no_slash name = true) (snd entry)) walk ->
  In file_path (Gui.for_root_in_walk h posixpath_join self walk []) ->
  is_compatible h self file_path = true
  /\ forall output_folder hist ext,
       convert_to_pdf h self file_path output_folder hist
       <> (Returned (false, "Extensão não suportada: " ++ ext), []).
Proof.
  intros Hos Hwalk Hin.
  assert (Hc : is_compatible h self file_path = true).
  { rewrite for_root_in_walk_filter in Hin. cbn [app] in Hin.
    apply in_flat_map in Hin as ([[root dirs] files] & Hentry & Hin).
    cbn [fst snd] in Hin.
    apply in_map_iff in Hin as (name & <- & Hname).
    apply filter_In in Hname as [Hname Hkeep].
    rewrite Forall_forall in Hwalk. specialize (Hwalk _ Hentry).
    cbn [snd] in Hwalk. rewrite Forall_forall in Hwalk.
    destruct (join_directory_prefix root name (Hwalk _ Hname)) as (d & Hd & ->).
    unfold is_compatible in *. rewrite Hos in *.
    rewrite (splitext_directory_prefix d name Hd (Hwalk _ Hname)).
    exact Hkeep. }
  split; [exact Hc |].
  intros output_folder hist ext. apply accepted_not_rejected. exact Hc.
Qed.

Lemma folder_files_are_accepted_witness :
  Gui.for_root_in_walk Hosts.linux posixpath_join Hosts.headless_only
    [ ("/docs", ["velhos"], ["ata.ODT"; "notas.txt"]);
      ("/docs/velhos", [], ["carta.docx"; ".rtf"]) ] []
  = ["/docs/ata.ODT"; "/docs/velhos/carta.docx"]
  /\ is_compatible Hosts.linux Hosts.headless_only "/docs/ata.ODT" = true.
Proof.
  split; [reflexivity |].
  refine (proj1 (folder_files_are_accepted Hosts.linux Hosts.headless_only
                   [ ("/docs", ["velhos"], ["ata.ODT"; "notas.txt"]);
                     ("/docs/velhos", [], ["carta.docx"; ".rtf"]) ]
                   "/docs/ata.ODT" eq_refl _ _)).
  - repeat constructor.
  - left. reflexivity.
Defined.

Lemma headless_failure (h : Host) (self : DocumentConverter)
    (input_path output_folder : str) (hist : history) (msg : str)
    (child : list event) :
  truthy (libreoffice_path self) = true ->
  _convert_with_libreoffice h self input_path output_folder hist
    = (Returned (false, msg), child) ->
  exists executable,
    libreoffice_path self = Some executable
    /\ child = [ EvSubprocessRun
                   (headless_command executable input_path output_folder)
                   (spawn_configuration h) ]
    /\ match popen h hist (headless_command executable input_path output_folder)
                   (spawn_configuration h) with
       | Exited rc _ err =>
           rc <> 0%Z /\ msg = "Erro LibreOffice: " ++ decode_utf8_ignore err
       | NotStarted m => msg = "Erro genérico LibreOffice: " ++ m
       end.
Proof.
  intros T E. apply truthy_Some in T as (exe & Hp & _).
  rewrite (headless_run h self exe _ _ _ Hp) in E. unfold headless_result in E.
  exists exe. split; [exact Hp |].
  destruct (popen h hist _ _) as [m | rc out err].
  - inversion E. split; reflexivity.
  - destruct (Z.eqb_spec rc 0) as [-> | N]; inversion E.
    split; [reflexivity |]. split; [exact N | reflexivity].
Qed.

(** X13: every failure of [convert_to_pdf] has its cause in its message.
    Either the extension is not supported and nothing was invoked; or
    there is no LibreOffice path and either no backend applied, or the
    bridge raised and its error text is reported; or the last event is
    a child process that exited with a status other than zero, whose
    decoded standard error is reported, or that could not be started,
    whose error is reported as generic. *)
Theorem failure_is_explained (h : Host) (self : DocumentConverter)
    (input_path output_folder : str) (hist : history) (msg : str)
    (evs : list event) :
  convert_to_pdf h self input_path output_folder hist
    = (Returned (false, msg), evs) ->
  let ext := lower (lower_nonascii h) (snd (splitext h input_path)) in
  (str_in ext (supported_extensions self) = false
   /\ msg = "Extensão não suportada: " ++ ext /\ evs = [])
  \/ (str_in ext (supported_extensions self) = true
      /\ truthy (libreoffice_path self) = false
      /\ ((msg = "Nenhum conversor (Word ou LibreOffice) encontrado." /\ evs = [])
          \/ exists e,
               word_call h input_path output_folder hist = (Raised e, evs)
               /\ msg = "Erro Word: " ++ str_exn h e))
  \/ (str_in ext (supported_extensions self) = true
      /\ exists executable before,
           libreoffice_path self = Some executable
           /\ evs = (before
                     ++ [ EvSubprocessRun
                            [ executable; "--headless"; "--convert-to"; "pdf";
                              input_path; "--outdir"; output_folder ]
                            (if platform_system h =? "Windows"
                             then Some 1%Z else None) ])%list
           /\ match popen h (hist ++ before)%list
                          [ executable; "--headless"; "--convert-to"; "pdf";
                            input_path; "--outdir"; output_folder ]
                          (if platform_system h =? "Windows"
                           then Some 1%Z else None) with
              | Exited rc _ err =>
                  rc <> 0%Z /\ msg = "Erro LibreOffice: " ++ decode_utf8_ignore err
              | NotStarted m => msg = "Erro genérico LibreOffice: " ++ m
              end).
Proof.
  intros E ext. fold (extension h input_path) in ext. subst ext.
  destruct (str_in (extension h input_path) (supported_extensions self)) eqn:Hs.
  2:{ rewrite (convert_rejected _ _ _ _ _ Hs) in E. inversion E.
      left. repeat split; reflexivity. }
  right. rewrite (convert_accepted _ _ _ _ _ Hs) in E.
  assert (Hfall : forall before,
             truthy (libreoffice_path self) = true ->
             (fst (_convert_with_libreoffice h self input_path output_folder
                     (hist ++ before)%list),
              (before ++ snd (_convert_with_libreoffice h self input_path
                                output_folder (hist ++ before)%list))%list)
             = (Returned (false, msg), evs) ->
             exists executable before,
               libreoffice_path self = Some executable
               /\ evs = (before
                         ++ [ EvSubprocessRun
                                (headless_command executable input_path output_folder)
                                (spawn_configuration h) ])%list
               /\ match popen h (hist ++ before)%list
                              (headless_command executable input_path output_folder)
                              (spawn_configuration h) with
                  | Exited rc _ err =>
                      rc <> 0%Z
                      /\ msg = "Erro LibreOffice: " ++ decode_utf8_ignore err
                  | NotStarted m => msg = "Erro genérico LibreOffice: " ++ m
                  end).
  { intros before T R.
    destruct (_convert_with_libreoffice h self input_path output_folder
                (hist ++ before)%list) as [r child] eqn:R'.
    cbn [fst snd] in R. inversion R; subst r evs; clear R.
    destruct (headless_failure _ _ _ _ _ _ _ T R') as (exe & Hp & -> & Hx).
    exists exe, before. repeat split; assumption. }
  unfold select in E.
  destruct (has_word self && _) eqn:Hsel.
  - destruct (word_call_cases h input_path output_folder hist)
      as [(e & _ & W) | [(e & _ & _ & W) | (_ & _ & W)]].
    + rewrite (word_branch_raised _ _ _ _ _ _ _ W) in E.
      destruct (truthy (libreoffice_path self)) eqn:T.
      * right. split; [reflexivity |]. exact (Hfall _ eq_refl E).
      * left. split; [reflexivity |]. split; [reflexivity |].
        right. exists e. inversion E; subst. split; [exact W | reflexivity].
    + rewrite (word_branch_raised _ _ _ _ _ _ _ W) in E.
      destruct (truthy (libreoffice_path self)) eqn:T.
      * right. split; [reflexivity |]. exact (Hfall _ eq_refl E).
      * left. split; [reflexivity |]. split; [reflexivity |].
        right. exists e. inversion E; subst. split; [exact W | reflexivity].
    + rewrite (word_branch_returned _ _ _ _ _ _ W) in E. inversion E.
  - destruct (truthy (libreoffice_path self)) eqn:T.
    + right. split; [reflexivity |].
      specialize (Hfall [] eq_refl). rewrite app_nil_r in Hfall.
      apply Hfall.
      destruct (_convert_with_libreoffice h self input_path output_folder hist).
      cbn [fst snd app]. exact E.
    + left. split; [reflexivity |]. split; [reflexivity |].
      left. inversion E. split; reflexivity.
Qed.

Lemma failure_is_explained_witness :
  convert_to_pdf Hosts.linux Hosts.headless_only "/docs/quebrado.odt" "/docs" []
  = (Returned (false, "Erro LibreOffice: Erro!"),
     [ EvSubprocessRun [ "soffice"; "--headless"; "--convert-to"; "pdf";
                         "/docs/quebrado.odt"; "--outdir"; "/docs" ] None ])
  /\ str_in (extension Hosts.linux "/docs/quebrado.odt")
            (supported_extensions Hosts.headless_only) = true.
Proof.
  split; [reflexivity |].
  destruct (failure_is_explained Hosts.linux Hosts.headless_only
              "/docs/quebrado.odt" "/docs" [] "Erro LibreOffice: Erro!"
              [ EvSubprocessRun [ "soffice"; "--headless"; "--convert-to"; "pdf";
                                  "/docs/quebrado.odt"; "--outdir"; "/docs" ] None ]
              eq_refl) as [(F & _) | [(T & _) | (T & _)]].
  - discriminate F.
  - exact T.
  - exact T.
Defined.
